(** * COVID-19 dashboard: embedding of [dashboard/app.py] and its properties

    The dashboard is a Streamlit script: it is executed top to bottom on
    every interaction, each [st.*] call appends an element to the page,
    and an uncaught exception stops the run, leaving the elements already
    rendered on the page.

    Conventions of the embedding.
    - A pandas DataFrame is the list of its rows, in row order; a row is a
      record with one field per column.
    - Integer columns ([confirmed], [deaths], [recovered], [active]) are
      mathematical integers [Z].
    - Floating-point values (rates, ratios, rolling means, coordinates)
      are exact rationals [Q]; a value that may be NaN is an [option Q],
      [None] standing for NaN.  Rounding of binary floating point is not
      modelled there.  The rebound index, whose verdict compares a
      quotient of two means with 1.2, is given a second time on binary64
      numbers (module [Binary64]), where rounding decides.
    - [file_date] is a timestamp in nanoseconds since the epoch, as in a
      [datetime64[ns]] column; [.dt.date] keeps the day number.
    - Code that may raise returns a [result]; the script threads the list
      of elements rendered so far. *)

From Stdlib Require Import List ZArith QArith Qround String Ascii Bool Lia.
From Stdlib Require Import Permutation Sorted DecimalString Lqa Floats.
Import ListNotations.

Local Open Scope string_scope.
Local Open Scope Z_scope.

(** ** Exceptions and the error monad *)

Inductive Exn : Type :=
| KeyError (key : string)
| NameError (name : string)
| IndexError
| ZeroDivisionError
| FileNotFoundError
| OtherError.

Inductive result (A : Type) : Type :=
| Ok (a : A)
| Raise (e : Exn).

Arguments Ok {A} a.
Arguments Raise {A} e.

Definition bind {A B : Type} (c : result A) (k : A -> result B) : result B :=
  match c with
  | Ok a => k a
  | Raise e => Raise e
  end.

Notation "x <- c ;; k" := (bind c (fun x => k))
  (at level 61, c at next level, right associativity).

(** [try: c except: d] *)
Definition try_except {A : Type} (c : result A) (d : A) : A :=
  match c with
  | Ok a => a
  | Raise _ => d
  end.

(** ** Python dictionaries with string keys, as association lists *)

Definition dict (V : Type) : Type := list (string * V).

Fixpoint dict_lookup {V : Type} (d : dict V) (k : string) : option V :=
  match d with
  | [] => None
  | (k', v) :: d' => if String.eqb k k' then Some v else dict_lookup d' k
  end.

(** [d.get(k, default)] *)
Definition dict_get {V : Type} (d : dict V) (k : string) (default : V) : V :=
  match dict_lookup d k with
  | Some v => v
  | None => default
  end.

(** [k in d] *)
Definition dict_mem {V : Type} (d : dict V) (k : string) : bool :=
  match dict_lookup d k with
  | Some _ => true
  | None => false
  end.

(** ** Continent classification *)

Definition corrections : dict string :=
  [ ("US", "United States"); ("Korea, South", "South Korea");
    ("Taiwan*", "Taiwan"); ("Burma", "Myanmar");
    ("Congo (Kinshasa)", "Congo"); ("Congo (Brazzaville)", "Congo");
    ("Cote d'Ivoire", "Ivory Coast"); ("West Bank and Gaza", "Israel");
    ("Russia", "Russian Federation"); ("Vietnam", "Viet Nam");
    ("Laos", "Lao People's Democratic Republic");
    ("Syria", "Syrian Arab Republic"); ("Iran", "Iran, Islamic Republic of");
    ("Tanzania", "Tanzania, United Republic of");
    ("Venezuela", "Venezuela, Bolivarian Republic of");
    ("Bolivia", "Bolivia, Plurinational State of");
    ("Brunei", "Brunei Darussalam");
    ("United Kingdom", "United Kingdom"); ("France", "France") ].

Definition continents : dict string :=
  [ ("NA", "North America"); ("SA", "South America"); ("AS", "Asia");
    ("OC", "Oceania"); ("EU", "Europe"); ("AF", "Africa") ].

(** The labels a classification can produce. *)
Definition continent_labels : list string :=
  [ "North America"; "South America"; "Asia"; "Oceania"; "Europe"; "Africa";
    "Others" ].

Section Continent.

(** The two resolvers of the external package [pycountry_convert]; each
    may raise on an input it does not know. *)
Variable country_name_to_country_alpha2 : string -> result string.
Variable country_alpha2_to_continent_code : string -> result string.

Definition get_continent_body (country_name : string) : result string :=
  let country_name := dict_get corrections country_name country_name in
  country_alpha2 <- country_name_to_country_alpha2 country_name ;;
  continent_code <- country_alpha2_to_continent_code country_alpha2 ;;
  Ok (dict_get continents continent_code "Others").

Definition get_continent (country_name : string) : string :=
  try_except (get_continent_body country_name) "Others".

End Continent.

(** ** Data model *)

Record Row : Type := mkRow {
  country_region : string;
  file_date : Z;
  confirmed : Z;
  deaths : Z;
  recovered : Z;
  active : Z;
  lat : option Q;
  long_ : option Q;
  Continent : string
}.

Definition DataFrame : Type := list Row.

(** The CSV file as [pd.read_csv] returns it: the [active] column is present
    or absent as a whole, and there is no [Continent] column yet. *)
Record CsvRow : Type := mkCsvRow {
  csv_country_region : string;
  csv_file_date : Z;
  csv_confirmed : Z;
  csv_deaths : Z;
  csv_recovered : Z;
  csv_active : Z;
  csv_lat : option Q;
  csv_long_ : option Q
}.

Record CsvTable : Type := mkCsvTable {
  has_active : bool;
  csv_rows : list CsvRow
}.

Definition string_in (x : string) (l : list string) : bool :=
  existsb (String.eqb x) l.

(** [Series.unique()]: distinct values in order of first appearance. *)
Fixpoint unique_from (seen : list string) (l : list string) : list string :=
  match l with
  | [] => []
  | x :: l' =>
      if string_in x seen then unique_from seen l'
      else x :: unique_from (x :: seen) l'
  end.

Definition unique (l : list string) : list string := unique_from [] l.

Section Loader.

Variable country_name_to_country_alpha2 : string -> result string.
Variable country_alpha2_to_continent_code : string -> result string.

Let classify : string -> string :=
  get_continent country_name_to_country_alpha2
                country_alpha2_to_continent_code.

(** [load_data]; the argument is the content of the CSV file, [None] when
    the file does not exist. *)
Definition load_data (file : option CsvTable) : result DataFrame :=
  match file with
  | None => Raise FileNotFoundError
  | Some t =>
      let unique_countries := unique (map csv_country_region (csv_rows t)) in
      let continent_map : dict string :=
        map (fun c => (c, classify c)) unique_countries in
      Ok (map (fun r =>
                 mkRow (csv_country_region r) (csv_file_date r)
                       (csv_confirmed r) (csv_deaths r) (csv_recovered r)
                       (if has_active t then csv_active r
                        else csv_confirmed r - csv_deaths r - csv_recovered r)
                       (csv_lat r) (csv_long_ r)
                       (dict_get continent_map (csv_country_region r) ""))
              (csv_rows t))
  end.

End Loader.

(** ** Filters *)

Definition ns_per_day : Z := 86400000000000.

(** [.dt.date]: the calendar day of a timestamp, as a day number. *)
Definition dt_date (ts : Z) : Z := ts / ns_per_day.

Record Selection : Type := mkSelection {
  selected_continents : list string;
  selected_countries : list string;
  start_date : Z;
  end_date : Z
}.

(** Truth value of a Python list. *)
Definition truthy {A : Type} (l : list A) : bool :=
  match l with
  | [] => false
  | _ :: _ => true
  end.

Definition mask_date (sel : Selection) (r : Row) : bool :=
  (start_date sel <=? dt_date (file_date r)) &&
  (dt_date (file_date r) <=? end_date sel).

Definition df_filtered (df : DataFrame) (sel : Selection) : DataFrame :=
  let df_filtered := filter (mask_date sel) df in
  let df_filtered :=
    if truthy (selected_continents sel)
    then filter (fun r => string_in (Continent r) (selected_continents sel))
                df_filtered
    else df_filtered in
  let df_filtered :=
    if truthy (selected_countries sel)
    then filter (fun r => string_in (country_region r) (selected_countries sel))
                df_filtered
    else df_filtered in
  df_filtered.

Definition df_last_day (df : DataFrame) (sel : Selection) : DataFrame :=
  filter (fun r => dt_date (file_date r) =? end_date sel) (df_filtered df sel).

(** ** Sorting and grouping *)

Section Sorting.

Context {A : Type}.
Variable leb : A -> A -> bool.

Fixpoint insert_sorted (x : A) (l : list A) : list A :=
  match l with
  | [] => [x]
  | y :: l' => if leb x y then x :: l else y :: insert_sorted x l'
  end.

(** A stable sort by [leb].  pandas sorts with an unstable algorithm by
    default; no statement below depends on the order among ties. *)
Fixpoint sort_by (l : list A) : list A :=
  match l with
  | [] => []
  | x :: l' => insert_sorted x (sort_by l')
  end.

End Sorting.

(** Keys of a [groupby]: the distinct key values, ascending. *)
Definition group_keys_date (keys : list Z) : list Z :=
  sort_by Z.leb (nodup Z.eq_dec keys).

Definition group_keys_country (keys : list string) : list string :=
  sort_by String.leb (nodup string_dec keys).

(** Rows of one group, in row order. *)
Definition rows_of_date (d : Z) (t : DataFrame) : DataFrame :=
  filter (fun r => file_date r =? d) t.

Definition rows_of_country (c : string) (t : DataFrame) : DataFrame :=
  filter (fun r => String.eqb (country_region r) c) t.

Definition Zsum (l : list Z) : Z := fold_right Z.add 0 l.

Definition empty {A : Type} (l : list A) : bool :=
  match l with
  | [] => true
  | _ :: _ => false
  end.

(** Python indexing [l[i]] and [.iloc[i]], negative positions counting from
    the end. *)
Definition iloc {A : Type} (l : list A) (i : Z) : result A :=
  let n := Z.of_nat (List.length l) in
  let j := if i <? 0 then n + i else i in
  if (0 <=? j) && (j <? n) then
    match nth_error l (Z.to_nat j) with
    | Some a => Ok a
    | None => Raise IndexError
    end
  else Raise IndexError.

(** ** Numbers *)

Local Open Scope Q_scope.

(** Division; a zero divisor is reported as [ZeroDivisionError], also where
    numpy would only warn and return inf or NaN. *)
Definition true_div (a b : Q) : result Q :=
  if Qeq_bool b 0 then Raise ZeroDivisionError else Ok (a / b).

(** [x > c] on a possibly-NaN value: a comparison with NaN is false. *)
Definition fgt (x : option Q) (c : Q) : bool :=
  match x with
  | Some q => negb (Qle_bool q c)
  | None => false
  end.

Definition fdiv (a b : option Q) : result (option Q) :=
  match a, b with
  | Some x, Some y => q <- true_div x y ;; Ok (Some q)
  | _, _ => Ok None
  end.

Definition round_half_even (x : Q) : Z :=
  let f := Qfloor x in
  match Qcompare (x - inject_Z f) (1 # 2) with
  | Lt => f
  | Gt => (f + 1)%Z
  | Eq => if Z.even f then f else (f + 1)%Z
  end.

Definition string_of_Z (z : Z) : string :=
  NilZero.string_of_int (Z.to_int z).

(** The format [:.2f]. *)
Definition format_2f (x : Q) : string :=
  let n := Z.abs (round_half_even (x * 100)) in
  let frac := (n mod 100)%Z in
  ((if negb (Qle_bool 0 x) then "-" else "")
     ++ string_of_Z (n / 100) ++ "."
     ++ (if (frac <? 10)%Z then "0" else "") ++ string_of_Z frac)%string.

Local Close Scope Q_scope.

(** ** KPIs *)

Definition kpi_confirmed (df_last_day : DataFrame) : Z :=
  if negb (empty df_last_day) then Zsum (map confirmed df_last_day) else 0.

Definition kpi_deaths (df_last_day : DataFrame) : Z :=
  if negb (empty df_last_day) then Zsum (map deaths df_last_day) else 0.

Definition fatality_rate (kpi_deaths kpi_confirmed : Z) : result Q :=
  if 0 <? kpi_confirmed then
    q <- true_div (inject_Z kpi_deaths) (inject_Z kpi_confirmed) ;;
    Ok (q * 100)%Q
  else Ok 0%Q.

(** ** Timeline *)

Record TimelineRow : Type := mkTimelineRow {
  tl_file_date : Z;
  tl_confirmed : Z;
  tl_deaths : Z;
  tl_recovered : Z;
  tl_active : Z
}.

(** [df_filtered.groupby("file_date")[[...]].sum().reset_index()] *)
Definition timeline (df_filtered : DataFrame) : list TimelineRow :=
  map (fun d =>
         let g := rows_of_date d df_filtered in
         mkTimelineRow d (Zsum (map confirmed g)) (Zsum (map deaths g))
                       (Zsum (map recovered g)) (Zsum (map active g)))
      (group_keys_date (map file_date df_filtered)).

(** ** Map *)

Record Coord : Type := mkCoord { coord_lat : Q; coord_long : Q }.

Definition COUNTRY_COORDS : dict Coord :=
  [ ("France", mkCoord 46.2276 2.2137);
    ("United Kingdom", mkCoord 55.3781 (-3.4360));
    ("Denmark", mkCoord 56.2639 9.5018);
    ("Netherlands", mkCoord 52.1326 5.2913);
    ("US", mkCoord 37.0902 (-95.7129));
    ("United States", mkCoord 37.0902 (-95.7129)) ].

(** [d[k]] *)
Definition dict_index {V : Type} (d : dict V) (k : string) : result V :=
  match dict_lookup d k with
  | Some v => Ok v
  | None => Raise (KeyError k)
  end.

Record CountryTotal : Type := mkCountryTotal {
  ct_country_region : string;
  ct_confirmed : Z;
  ct_lat : option Q;
  ct_long_ : option Q
}.

(** The aggregation ["first"]: the first non-null value of the group. *)
Fixpoint first_valid (l : list (option Q)) : option Q :=
  match l with
  | [] => None
  | Some v :: _ => Some v
  | None :: l' => first_valid l'
  end.

Definition group_totals (df_last_day : DataFrame) : list CountryTotal :=
  map (fun c =>
         let g := rows_of_country c df_last_day in
         mkCountryTotal c (Zsum (map confirmed g))
                        (first_valid (map lat g)) (first_valid (map long_ g)))
      (group_keys_country (map country_region df_last_day)).

(** The variable [country_totals] is bound only when the end-date subset
    has rows: [None] is the unbound name. *)
Definition country_totals (df_last_day : DataFrame)
  : option (list CountryTotal) :=
  if negb (empty df_last_day) then Some (group_totals df_last_day) else None.

(** [sort_values("confirmed", ascending=False)] *)
Definition sort_confirmed_desc (t : DataFrame) : DataFrame :=
  sort_by (fun a b => confirmed b <=? confirmed a) t.

Definition fix_coords (df_last_day : DataFrame) (row : CountryTotal)
  : result (option Q * option Q) :=
  if dict_mem COUNTRY_COORDS (ct_country_region row) then
    a <- dict_index COUNTRY_COORDS (ct_country_region row) ;;
    b <- dict_index COUNTRY_COORDS (ct_country_region row) ;;
    Ok (Some (coord_lat a), Some (coord_long b))
  else
    Ok (try_except
          (let country_data :=
             rows_of_country (ct_country_region row) df_last_day in
           best_row <- iloc (sort_confirmed_desc country_data) 0 ;;
           Ok (lat best_row, long_ best_row))
          (ct_lat row, ct_long_ row)).

(** [country_totals[["lat", "long_"]] = country_totals.apply(fix_coords, axis=1)] *)
Fixpoint apply_fix_coords (df_last_day : DataFrame) (rows : list CountryTotal)
  : result (list CountryTotal) :=
  match rows with
  | [] => Ok []
  | row :: rows' =>
      c <- fix_coords df_last_day row ;;
      rest <- apply_fix_coords df_last_day rows' ;;
      Ok (mkCountryTotal (ct_country_region row) (ct_confirmed row)
                         (fst c) (snd c) :: rest)
  end.

Definition notna (x : option Q) : bool :=
  match x with
  | Some _ => true
  | None => false
  end.

(** [dropna(subset=["lat", "long_"])] *)
Definition dropna_coords (rows : list CountryTotal) : list CountryTotal :=
  filter (fun r => notna (ct_lat r) && notna (ct_long_ r)) rows.

(** Lines 170-173: the repaired coordinates and the map table. *)
Definition map_data (df_last_day : DataFrame) : result (list CountryTotal) :=
  match country_totals df_last_day with
  | None => Raise (NameError "country_totals")
  | Some totals =>
      fixed <- apply_fix_coords df_last_day totals ;;
      Ok (dropna_coords fixed)
  end.

(** ** Conclusions: growth rate and rebound index *)

Definition growth_rate (start_val end_val : Z) : result Q :=
  if 0 <? start_val then
    q <- true_div (inject_Z (end_val - start_val)) (inject_Z start_val) ;;
    Ok (q * 100)%Q
  else Ok (if end_val =? 0 then 0%Q else 100%Q).

Fixpoint diff_from (prev : Z) (l : list Z) : list (option Z) :=
  match l with
  | [] => []
  | x :: l' => Some (x - prev) :: diff_from x l'
  end.

(** [Series.diff()]: the first position has no predecessor. *)
Definition diff (l : list Z) : list (option Z) :=
  match l with
  | [] => []
  | x :: l' => None :: diff_from x l'
  end.

Definition fillna (d : Z) (l : list (option Z)) : list Z :=
  map (fun o => match o with Some v => v | None => d end) l.

(** [timeline["confirmed"].diff().fillna(0)] *)
Definition new_cases (tl : list TimelineRow) : list Z :=
  fillna 0 (diff (map tl_confirmed tl)).

(** [Series.rolling(window).mean()]: position [i] holds the mean of the
    [window] values ending at [i], and NaN while fewer are available. *)
Definition rolling_mean (window : nat) (l : list Z) : list (option Q) :=
  map (fun i =>
         if (S i <? window)%nat then None
         else Some (inject_Z (Zsum (firstn window (skipn (S i - window) l)))
                    / inject_Z (Z.of_nat window))%Q)
      (seq 0 (List.length l)).

Definition avg_7d (tl : list TimelineRow) : list (option Q) :=
  rolling_mean 7 (new_cases tl).

Definition rebound_ratio (tl : list TimelineRow) : result (option Q) :=
  current_week_avg <- iloc (avg_7d tl) (-1) ;;
  prev_week_avg <- iloc (avg_7d tl) (-8) ;;
  if fgt prev_week_avg 0 then fdiv current_week_avg prev_week_avg
  else Ok (Some 0%Q).

Inductive Verdict : Type :=
| ReboundAlert
| UpwardTrend
| StableOrDeclining.

Definition verdict (rebound_ratio : option Q) : Verdict :=
  if fgt rebound_ratio 1.2 then ReboundAlert
  else if fgt rebound_ratio 1.0 then UpwardTrend
  else StableOrDeclining.

Inductive Rebound : Type :=
| ReboundIndex (v : Verdict) (ratio : option Q)
| NeedFourteenDays.

Inductive Conclusion : Type :=
| Growth (growth : Q) (start_val end_val : Z) (rebound : Rebound)
| InsufficientData.

Definition rebound (tl : list TimelineRow) : result Rebound :=
  if (14 <=? List.length tl)%nat then
    ratio <- rebound_ratio tl ;;
    Ok (ReboundIndex (verdict ratio) ratio)
  else Ok NeedFourteenDays.

(** Lines 192-231. *)
Definition conclusions (tl : list TimelineRow) : result Conclusion :=
  if negb (empty tl) && (1 <? List.length tl)%nat then
    first <- iloc tl 0 ;;
    last <- iloc tl (-1) ;;
    let start_val := tl_confirmed first in
    let end_val := tl_confirmed last in
    growth <- growth_rate start_val end_val ;;
    reb <- rebound tl ;;
    Ok (Growth growth start_val end_val reb)
  else Ok InsufficientData.

(** ** Ranking *)

(** Maximum of a group; a group has at least one row. *)
Definition Zmax_list (l : list Z) : Z :=
  match l with
  | [] => 0
  | x :: l' => fold_left Z.max l' x
  end.

Definition group_max_active (df_last_day : DataFrame) : list (string * Z) :=
  map (fun c => (c, Zmax_list (map active (rows_of_country c df_last_day))))
      (group_keys_country (map country_region df_last_day)).

(** [sort_values(ascending=False)] *)
Definition sort_active_desc (s : list (string * Z)) : list (string * Z) :=
  sort_by (fun a b => snd b <=? snd a) s.

(** [df_last_day.groupby("country_region")["active"].max()
      .sort_values(ascending=False).head(10).reset_index()] *)
Definition top_active (df_last_day : DataFrame) : list (string * Z) :=
  firstn 10 (sort_active_desc (group_max_active df_last_day)).

(** ** The page *)

Inductive Element : Type :=
| MetricCount (label : string) (value : Z)
| MetricRate (label : string) (text : string)
| LineChart (timeline : list TimelineRow)
| NoTimeline          (* "No hay datos para el rango seleccionado." *)
| ScatterGeo (map_data : list CountryTotal)
| NoGeoData           (* "Sin datos geograficos." *)
| GrowthInfo (growth_text : string) (start_val end_val : Z)
| ReboundMessage (v : Verdict) (ratio_text : string)
| NeedFourteenDaysMessage
                      (* "Se necesitan al menos 14 dias de datos ..." *)
| InsufficientDataMessage
                      (* "Datos insuficientes para generar una conclusion." *)
| BarChart (top_active : list (string * Z))
| NoRanking.          (* "No hay datos para el ranking." *)

(** A run of the script: the elements rendered so far, and a value or the
    exception that stopped the run. *)
Definition Script (A : Type) : Type :=
  list Element -> list Element * result A.

Definition ret {A : Type} (a : A) : Script A :=
  fun page => (page, Ok a).

Definition seq_bind {A B : Type} (c : Script A) (k : A -> Script B)
  : Script B :=
  fun page =>
    match c page with
    | (page', Ok a) => k a page'
    | (page', Raise e) => (page', Raise e)
    end.

Definition st_show (e : Element) : Script unit :=
  fun page => ((page ++ [e])%list, Ok tt).

Definition eval {A : Type} (r : result A) : Script A :=
  fun page => (page, r).

Notation "'do' x <- c ; k" := (seq_bind c (fun x => k))
  (at level 10, x name, c at level 100, k at level 200).
Notation "c >> k" := (seq_bind c (fun _ => k))
  (at level 62, right associativity).

Definition format_ratio (ratio : option Q) : string :=
  match ratio with
  | Some q => format_2f q
  | None => "nan"
  end.

Definition show_rebound (r : Rebound) : Script unit :=
  match r with
  | ReboundIndex v ratio => st_show (ReboundMessage v (format_ratio ratio))
  | NeedFourteenDays => st_show NeedFourteenDaysMessage
  end.

Definition show_conclusion (c : Conclusion) : Script unit :=
  match c with
  | Growth growth start_val end_val reb =>
      st_show (GrowthInfo (format_2f growth) start_val end_val) >>
      show_rebound reb
  | InsufficientData => st_show InsufficientDataMessage
  end.

(** The script from the filters on (lines 93-249). *)
Definition app (df : DataFrame) (sel : Selection) : Script unit :=
  let df_filtered := df_filtered df sel in
  let df_last_day := df_last_day df sel in
  let kpi_confirmed := kpi_confirmed df_last_day in
  let kpi_deaths := kpi_deaths df_last_day in
  do fatality_rate <- eval (fatality_rate kpi_deaths kpi_confirmed);
  st_show (MetricCount "Total Confirmados" kpi_confirmed) >>
  st_show (MetricCount "Total Fallecidos" kpi_deaths) >>
  st_show (MetricRate "Tasa de Letalidad" (format_2f fatality_rate ++ "%")) >>
  let timeline := timeline df_filtered in
  (if negb (empty timeline) then st_show (LineChart timeline)
   else st_show NoTimeline) >>
  do map_data <- eval (map_data df_last_day);
  (if negb (empty map_data) then st_show (ScatterGeo map_data)
   else st_show NoGeoData) >>
  do conclusion <- eval (conclusions timeline);
  show_conclusion conclusion >>
  (if negb (empty df_last_day) then
     let top_active := top_active df_last_day in
     if negb (empty top_active) then st_show (BarChart top_active)
     else st_show NoRanking
   else st_show NoRanking).

(** Running the script on an empty page. *)
Definition run (df : DataFrame) (sel : Selection)
  : list Element * result unit :=
  app df sel [].

(** ** The rebound index as the specification words it *)

(** New cases on day [i] of a confirmed series: the first difference, the
    first value counting as zero. *)
Definition new_case_at (c : list Z) (i : nat) : Z :=
  match i with
  | O => 0
  | S j => nth (S j) c 0 - nth j c 0
  end.

(** Mean of the new cases of the seven days ending at [i]. *)
Definition avg7_at (c : list Z) (i : nat) : Q :=
  (inject_Z (new_case_at c (i - 6) + new_case_at c (i - 5)
             + new_case_at c (i - 4) + new_case_at c (i - 3)
             + new_case_at c (i - 2) + new_case_at c (i - 1)
             + new_case_at c i) / 7)%Q.

(** The ratio with a guard against a zero denominator only. *)
Definition ratio_zero_guard (c : list Z) : Q :=
  let n := List.length c in
  if Qeq_bool (avg7_at c (n - 8)) 0 then 0%Q
  else (avg7_at c (n - 1) / avg7_at c (n - 8))%Q.

(** ** Sample data *)

Definition day (n : Z) : Z := n * ns_per_day.

Definition sample_row (c : string) (d cf de ac : Z) : Row :=
  mkRow c (day d) cf de 0 ac None None "Others".

Definition sample_point (d cf : Z) : TimelineRow :=
  mkTimelineRow (day d) cf 0 0 0.

Fixpoint sample_series (d : Z) (cs : list Z) : list TimelineRow :=
  match cs with
  | [] => []
  | c :: cs' => sample_point d c :: sample_series (d + 1) cs'
  end.

(** Two countries reported on different days; selecting country A on day 2
    alone leaves no row. *)
Definition two_days : DataFrame :=
  [ sample_row "A" 1 30 1 5; sample_row "B" 2 70 2 9 ].

Definition only_A_on_day_2 : Selection := mkSelection [] ["A"] 2 2.

(** Two rows on the end date. *)
Definition two_rows : DataFrame :=
  [ sample_row "A" 1 30 1 5; sample_row "B" 1 70 2 9 ].

Definition day_1 : Selection := mkSelection [] [] 1 1.

(** Country A reported three times on the end date. *)
Definition duplicates : DataFrame :=
  [ sample_row "A" 1 10 0 5; sample_row "A" 1 10 0 5; sample_row "A" 1 10 0 9 ].

(** A row for the US that carries coordinates of its own, and a country
    outside the override table with two rows. *)
Definition with_us : DataFrame :=
  [ mkRow "US" (day 1) 30 1 0 5 (Some 1%Q) (Some 2%Q) "North America";
    mkRow "Chile" (day 1) 7 0 0 3 (Some 3%Q) (Some 4%Q) "South America";
    mkRow "Chile" (day 1) 9 0 0 4 (Some (-33)%Q) (Some (-70)%Q) "South America";
    mkRow "Atlantis" (day 1) 2 0 0 1 None None "Others" ].

(** One country on two dates, and the timeline it gives. *)
Definition two_dates : DataFrame :=
  [ sample_row "A" 1 100 0 0; sample_row "A" 2 150 0 0 ].

Definition two_points : list TimelineRow := sample_series 1 [100; 150].

(** Fourteen days with falling confirmed counts: one country whose count
    is revised downwards every day, and the timeline it gives. *)
Fixpoint sample_rows (c : string) (d : Z) (cs : list Z) : DataFrame :=
  match cs with
  | [] => []
  | cf :: cs' => sample_row c d cf 0 0 :: sample_rows c (d + 1) cs'
  end.

Definition falling_counts : list Z :=
  [100; 99; 98; 97; 96; 95; 93; 83; 73; 63; 53; 43; 33; 23].

Definition falling_table : DataFrame := sample_rows "A" 1 falling_counts.

Definition falling : list TimelineRow := sample_series 1 falling_counts.

Definition rising : list TimelineRow :=
  sample_series 1 [0; 1; 2; 3; 4; 5; 6; 7; 8; 9; 10; 11; 12; 14].

(** Resolvers that know one country. *)
Definition sample_alpha2 (name : string) : result string :=
  if String.eqb name "United States" then Ok "US" else Raise (KeyError name).

Definition sample_continent_code (alpha2 : string) : result string :=
  if String.eqb alpha2 "US" then Ok "NA" else Raise (KeyError alpha2).

(** ** The filters as one predicate on rows *)

Definition row_selected (sel : Selection) (r : Row) : bool :=
  mask_date sel r
  && (if truthy (selected_continents sel)
      then string_in (Continent r) (selected_continents sel) else true)
  && (if truthy (selected_countries sel)
      then string_in (country_region r) (selected_countries sel) else true).

(** A script that runs to its end from any page. *)
Definition completes (s : Script unit) : Prop :=
  forall page, snd (s page) = Ok tt.

(** ** Sidebar *)

(** [sorted(...)] on strings. *)
Definition sorted (l : list string) : list string := sort_by String.leb l.

Definition all_continents (df : DataFrame) : list string :=
  sorted (unique (map Continent df)).

(** Lines 81-84: the countries offered depend on the continents selected. *)
Definition filtered_countries (df : DataFrame)
  (selected_continents : list string) : list string :=
  if truthy selected_continents
  then unique (map country_region
                   (filter (fun r => string_in (Continent r) selected_continents)
                           df))
  else unique (map country_region df).

Definition country_options (df : DataFrame)
  (selected_continents : list string) : list string :=
  sorted (filtered_countries df selected_continents).

(** [Series.min()] and [Series.max()]; [None] is the NaT of an empty
    column. *)
Definition series_min (l : list Z) : option Z :=
  match l with
  | [] => None
  | x :: l' => Some (fold_left Z.min l' x)
  end.

Definition series_max (l : list Z) : option Z :=
  match l with
  | [] => None
  | x :: l' => Some (fold_left Z.max l' x)
  end.

Definition min_date (df : DataFrame) : option Z :=
  option_map dt_date (series_min (map file_date df)).

Definition max_date (df : DataFrame) : option Z :=
  option_map dt_date (series_max (map file_date df)).

(** The widgets as the page first shows them: nothing selected, the date
    range from [min_date] to [max_date]. *)
Definition default_selection (df : DataFrame) : option Selection :=
  match min_date df, max_date df with
  | Some a, Some b => Some (mkSelection [] [] a b)
  | _, _ => None
  end.

(** Timestamps of a CSV that holds dates without a time of day. *)
Definition at_midnight (r : Row) : Prop :=
  file_date r = dt_date (file_date r) * ns_per_day.

(** More sample data: a loaded table with two continents. *)
Definition two_continents : DataFrame :=
  [ mkRow "Chile" (day 1) 7 0 0 3 None None "South America";
    mkRow "Peru" (day 1) 5 0 0 2 None None "South America";
    mkRow "Spain" (day 1) 9 1 0 4 None None "Europe";
    mkRow "Chile" (day 2) 8 0 0 3 None None "South America" ].

(** ** The rebound index in binary64 *)

(** Lines 214-229 on binary64 numbers, as numpy and pandas compute them:
    the column [confirmed] is converted to float64, differences, sums and
    quotients are rounded to nearest, a comparison with NaN is false, and a
    division never raises. *)
Module Binary64.

(** An int64 as a float64. *)
Definition float_of_Z (z : Z) : float :=
  match z with
  | Z0 => 0%float
  | Zpos _ => PrimFloat.of_uint63 (Uint63.of_Z z)
  | Zneg p => (- PrimFloat.of_uint63 (Uint63.of_Z (Zpos p)))%float
  end.

Fixpoint diff_from (prev : float) (l : list float) : list float :=
  match l with
  | [] => []
  | x :: l' => (x - prev)%float :: diff_from x l'
  end.

(** [Series.diff()]: NaN on the first position. *)
Definition diff (l : list float) : list float :=
  match l with
  | [] => []
  | x :: l' => nan :: diff_from x l'
  end.

Definition isna (x : float) : bool := negb (PrimFloat.eqb x x).

Definition fillna (d : float) (l : list float) : list float :=
  map (fun x => if isna x then d else x) l.

(** [timeline["confirmed"].diff().fillna(0)] *)
Definition new_cases (tl : list TimelineRow) : list float :=
  fillna 0%float (diff (map float_of_Z (map tl_confirmed tl))).

(** [Series.rolling(window).mean()].  pandas keeps one running sum,
    started at zero, as the window slides; the new cases are integers, so
    below 2^53 every such sum is exact and is the sum of the window taken
    afresh, as here.  No value of the column is NaN once filled, so every
    full window counts [window] values. *)
Definition rolling_mean (window : nat) (l : list float) : list float :=
  map (fun i =>
         if (S i <? window)%nat then nan
         else (fold_left PrimFloat.add
                         (firstn window (skipn (S i - window) l)) 0
               / float_of_Z (Z.of_nat window))%float)
      (seq 0 (List.length l)).

Definition avg_7d (tl : list TimelineRow) : list float :=
  rolling_mean 7 (new_cases tl).

Definition rebound_ratio (tl : list TimelineRow) : result float :=
  current_week_avg <- iloc (avg_7d tl) (-1) ;;
  prev_week_avg <- iloc (avg_7d tl) (-8) ;;
  Ok (if (0 <? prev_week_avg)%float
      then (current_week_avg / prev_week_avg)%float
      else 0%float).

(** The double nearest to 1.2, which the literal [1.2] denotes. *)
Definition alert_level : float := 0x1.3333333333333p+0%float.

Definition verdict (rebound_ratio : float) : Verdict :=
  if (alert_level <? rebound_ratio)%float then ReboundAlert
  else if (1 <? rebound_ratio)%float then UpwardTrend
  else StableOrDeclining.

Inductive Rebound : Type :=
| ReboundIndex (v : Verdict) (ratio : float)
| NeedFourteenDays.

Definition rebound (tl : list TimelineRow) : result Rebound :=
  if (14 <=? List.length tl)%nat then
    ratio <- rebound_ratio tl ;;
    Ok (ReboundIndex (verdict ratio) ratio)
  else Ok NeedFourteenDays.

(** The new cases of day [i] as the specification words them: the first
    difference of the confirmed series, zero on the first day. *)
Definition new_case_at (c : list Z) (i : nat) : float :=
  match i with
  | O => 0%float
  | S j =>
      let d := (float_of_Z (nth (S j) c 0%Z) - float_of_Z (nth j c 0%Z))%float in
      if isna d then 0%float else d
  end.

(** Mean of the new cases of the seven days ending at [i]. *)
Definition avg7_at (c : list Z) (i : nat) : float :=
  ((0 + new_case_at c (i - 6) + new_case_at c (i - 5)
    + new_case_at c (i - 4) + new_case_at c (i - 3)
    + new_case_at c (i - 2) + new_case_at c (i - 1)
    + new_case_at c i) / 7)%float.

End Binary64.

(** Fourteen days whose last two weekly increases are 18 and 15. *)
Definition near_alert : list TimelineRow :=
  sample_series 1 [0; 3; 6; 9; 11; 13; 15; 18; 21; 24; 27; 29; 31; 33].

(** Country A on days 1 to 2 of [two_days]: one date is left, and it is
    not the end date. *)
Definition only_A_on_days_1_2 : Selection := mkSelection [] ["A"] 1 2.

(** * Properties *)

(** ** Lists *)

Lemma filter_filter {A : Type} (f g : A -> bool) (l : list A) :
  filter f (filter g l) = filter (fun x => g x && f x) l.
Proof.
  induction l as [|x l IH]; simpl; [reflexivity|].
  destruct (g x); simpl; [destruct (f x)|]; now rewrite IH.
Qed.

Lemma filter_idem {A : Type} (f : A -> bool) (l : list A) :
  filter f (filter f l) = filter f l.
Proof.
  rewrite filter_filter. apply filter_ext. intro x. now destruct (f x).
Qed.

(** ** Filters *)

Lemma df_filtered_row_selected (df : DataFrame) (sel : Selection) :
  df_filtered df sel = filter (row_selected sel) df.
Proof.
  unfold df_filtered, row_selected.
  destruct (truthy (selected_continents sel));
    destruct (truthy (selected_countries sel));
    rewrite ?filter_filter; apply filter_ext; intro r;
    rewrite ?andb_assoc, ?andb_true_r; reflexivity.
Qed.

(** C8. Filtering is idempotent: applying the filter selection (date range,
    continents, countries) to an already filtered table yields the table
    obtained by applying it once. *)
Theorem df_filtered_idempotent (df : DataFrame) (sel : Selection) :
  df_filtered (df_filtered df sel) sel = df_filtered df sel.
Proof.
  rewrite !df_filtered_row_selected. apply filter_idem.
Qed.

(** ** Continent classification *)

Lemma dict_get_continents (code : string) :
  In (dict_get continents code "Others") continent_labels.
Proof.
  unfold dict_get, continents, continent_labels. simpl.
  repeat match goal with
         | |- context [if ?b then _ else _] => destruct b; [simpl; tauto|]
         end.
  simpl; tauto.
Qed.

Section ContinentFacts.

Variable name_to_alpha2 : string -> result string.
Variable alpha2_to_code : string -> result string.

(** C6. For any string, whatever the two external resolvers do, the
    classification returns one of the six continents or "Others"; an
    exception of either resolver, or a continent code missing from the
    table, yields "Others". *)
Theorem get_continent_total (country_name : string) :
  In (get_continent name_to_alpha2 alpha2_to_code country_name) continent_labels
  /\ (forall e,
         name_to_alpha2 (dict_get corrections country_name country_name)
         = Raise e ->
         get_continent name_to_alpha2 alpha2_to_code country_name = "Others")
  /\ (forall alpha2 e,
         name_to_alpha2 (dict_get corrections country_name country_name)
         = Ok alpha2 ->
         alpha2_to_code alpha2 = Raise e ->
         get_continent name_to_alpha2 alpha2_to_code country_name = "Others")
  /\ (forall alpha2 code,
         name_to_alpha2 (dict_get corrections country_name country_name)
         = Ok alpha2 ->
         alpha2_to_code alpha2 = Ok code ->
         dict_lookup continents code = None ->
         get_continent name_to_alpha2 alpha2_to_code country_name = "Others").
Proof.
  unfold get_continent, get_continent_body.
  repeat split.
  - destruct (name_to_alpha2 _) as [a|e]; simpl;
      [destruct (alpha2_to_code a) as [c|e]; simpl|].
    + apply dict_get_continents.
    + unfold continent_labels; simpl; tauto.
    + unfold continent_labels; simpl; tauto.
  - intros e H. now rewrite H.
  - intros a e Ha He. rewrite Ha. simpl. now rewrite He.
  - intros a c Ha Hc Hl. rewrite Ha. simpl. rewrite Hc. simpl.
    unfold dict_get. now rewrite Hl.
Qed.

End ContinentFacts.

Lemma get_continent_total_witness :
  get_continent sample_alpha2 sample_continent_code "Atlantis" = "Others"
  /\ In (get_continent sample_alpha2 sample_continent_code "US")
        continent_labels.
Proof.
  split.
  - apply (proj1 (proj2 (get_continent_total sample_alpha2
                           sample_continent_code "Atlantis"))
             (KeyError "Atlantis")).
    reflexivity.
  - apply (proj1 (get_continent_total sample_alpha2
                    sample_continent_code "US")).
Defined.

(** ** Loader *)

Lemma string_in_In (x : string) (l : list string) :
  string_in x l = true <-> In x l.
Proof.
  unfold string_in. rewrite existsb_exists. split.
  - intros (y & Hy & E). apply String.eqb_eq in E. now subst.
  - intro H. exists x. split; [exact H|apply String.eqb_refl].
Qed.

Lemma unique_from_In (seen l : list string) (x : string) :
  In x (unique_from seen l) <-> In x l /\ ~ In x seen.
Proof.
  revert seen; induction l as [|y l IH]; intro seen; simpl; [tauto|].
  destruct (string_in y seen) eqn:E.
  - apply string_in_In in E. rewrite IH. split.
    + intros [H1 H2]. tauto.
    + intros [[->|H1] H2]; tauto.
  - assert (Hn : ~ In y seen)
      by (intro H; apply string_in_In in H; congruence).
    simpl. rewrite IH. simpl.
    destruct (string_dec y x) as [->|Hne]; [tauto|]. tauto.
Qed.

Lemma unique_In (l : list string) (x : string) : In x (unique l) <-> In x l.
Proof. unfold unique. rewrite unique_from_In. simpl. tauto. Qed.

Lemma dict_get_map (f : string -> string) (keys : list string) (k d : string) :
  In k keys -> dict_get (map (fun c => (c, f c)) keys) k d = f k.
Proof.
  unfold dict_get. induction keys as [|c keys IH]; simpl; [contradiction|].
  intros [->|H].
  - now rewrite String.eqb_refl.
  - destruct (String.eqb_spec k c) as [->|_]; [reflexivity|now apply IH].
Qed.

(** Every loaded row carries the continent its country classifies to, and
    an absent [active] column is computed from the other counts. *)
Lemma load_data_rows (name_to_alpha2 alpha2_to_code : string -> result string)
  (t : CsvTable) :
  exists df,
    load_data name_to_alpha2 alpha2_to_code (Some t) = Ok df
    /\ List.length df = List.length (csv_rows t)
    /\ Forall (fun r =>
                 Continent r
                 = get_continent name_to_alpha2 alpha2_to_code
                                 (country_region r))
              df
    /\ (has_active t = false ->
        Forall (fun r => active r = confirmed r - deaths r - recovered r) df).
Proof.
  eexists. split; [reflexivity|]. split; [apply length_map|]. split.
  - rewrite Forall_forall. intros r Hr. apply in_map_iff in Hr.
    destruct Hr as (c & <- & Hc). simpl.
    apply dict_get_map, unique_In. now apply in_map.
  - intro Ha. rewrite Forall_forall. intros r Hr. apply in_map_iff in Hr.
    destruct Hr as (c & <- & Hc). simpl. now rewrite Ha.
Qed.

Lemma load_data_missing_file
  (name_to_alpha2 alpha2_to_code : string -> result string) :
  load_data name_to_alpha2 alpha2_to_code None = Raise FileNotFoundError.
Proof. reflexivity. Qed.

(** ** Positional access *)

Lemma iloc_nth {A : Type} (l : list A) (i : nat) (d : A) :
  (i < List.length l)%nat -> iloc l (Z.of_nat i) = Ok (nth i l d).
Proof.
  intro H. unfold iloc.
  replace (Z.of_nat i <? 0) with false by (symmetry; apply Z.ltb_ge; lia).
  replace (0 <=? Z.of_nat i) with true by (symmetry; apply Z.leb_le; lia).
  replace (Z.of_nat i <? Z.of_nat (List.length l)) with true
    by (symmetry; apply Z.ltb_lt; lia).
  simpl. rewrite Nat2Z.id.
  rewrite (nth_error_nth' l d H). reflexivity.
Qed.

Lemma iloc_from_end {A : Type} (l : list A) (k : nat) (d : A) :
  (1 <= k <= List.length l)%nat ->
  iloc l (- Z.of_nat k) = Ok (nth (List.length l - k) l d).
Proof.
  intro H. unfold iloc.
  replace (- Z.of_nat k <? 0) with true by (symmetry; apply Z.ltb_lt; lia).
  replace (Z.of_nat (List.length l) + - Z.of_nat k)
    with (Z.of_nat (List.length l - k)) by lia.
  replace (0 <=? Z.of_nat (List.length l - k)) with true
    by (symmetry; apply Z.leb_le; lia).
  replace (Z.of_nat (List.length l - k) <? Z.of_nat (List.length l)) with true
    by (symmetry; apply Z.ltb_lt; lia).
  simpl. rewrite Nat2Z.id.
  rewrite (nth_error_nth' l d) by lia. reflexivity.
Qed.

(** ** Divisions are guarded *)

Lemma true_div_pos (a : Q) (b : Z) :
  0 < b -> true_div a (inject_Z b) = Ok (a / inject_Z b)%Q.
Proof.
  intro H. unfold true_div.
  destruct (Qeq_bool (inject_Z b) 0) eqn:E; [|reflexivity].
  apply Qeq_bool_eq in E. unfold Qeq in E. simpl in E. lia.
Qed.

Lemma fatality_rate_value (d c : Z) :
  fatality_rate d c
  = Ok (if 0 <? c then (inject_Z d / inject_Z c * 100)%Q else 0%Q).
Proof.
  unfold fatality_rate. destruct (0 <? c) eqn:E; [|reflexivity].
  apply Z.ltb_lt in E. now rewrite (true_div_pos _ _ E).
Qed.

Lemma growth_rate_value (s e : Z) :
  growth_rate s e
  = Ok (if 0 <? s then (inject_Z (e - s) / inject_Z s * 100)%Q
        else if e =? 0 then 0%Q else 100%Q).
Proof.
  unfold growth_rate. destruct (0 <? s) eqn:E; [|reflexivity].
  apply Z.ltb_lt in E. now rewrite (true_div_pos _ _ E).
Qed.

(** ** New cases and the rolling mean *)

Lemma length_diff_from (p : Z) (l : list Z) :
  List.length (diff_from p l) = List.length l.
Proof. revert p; induction l; simpl; intros; [reflexivity|now rewrite IHl]. Qed.

Lemma length_new_cases (tl : list TimelineRow) :
  List.length (new_cases tl) = List.length tl.
Proof.
  unfold new_cases, fillna, diff. rewrite length_map.
  destruct tl; simpl; [reflexivity|].
  now rewrite length_diff_from, length_map.
Qed.

Lemma length_rolling_mean (w : nat) (l : list Z) :
  List.length (rolling_mean w l) = List.length l.
Proof. unfold rolling_mean. now rewrite length_map, length_seq. Qed.

Lemma length_avg_7d (tl : list TimelineRow) :
  List.length (avg_7d tl) = List.length tl.
Proof. unfold avg_7d. now rewrite length_rolling_mean, length_new_cases. Qed.

Lemma nth_diff_from (p : Z) (l : list Z) (i : nat) :
  (i < List.length l)%nat ->
  nth i (fillna 0 (diff_from p l)) 0
  = nth i l 0 - match i with O => p | S j => nth j l 0 end.
Proof.
  unfold fillna.
  revert p i; induction l as [|x l IH]; simpl; intros p i H; [lia|].
  destruct i as [|i]; [reflexivity|].
  rewrite IH by lia. destruct i; reflexivity.
Qed.

Lemma nth_new_cases (c : list Z) (i : nat) :
  (i < List.length c)%nat ->
  nth i (fillna 0 (diff c)) 0 = new_case_at c i.
Proof.
  destruct c as [|x c]; simpl; intro H; [lia|].
  destruct i as [|i]; [reflexivity|].
  unfold new_case_at. change (nth (S i) (x :: c) 0) with (nth i c 0).
  change (nth (S i) (fillna 0 (None :: diff_from x c)) 0)
    with (nth i (fillna 0 (diff_from x c)) 0).
  rewrite (nth_diff_from x c i) by lia.
  destruct i; reflexivity.
Qed.

Lemma Zsum_window (k s : nat) (l : list Z) :
  Zsum (firstn k (skipn s l))
  = Zsum (map (fun j => nth (s + j) l 0) (seq 0 k)).
Proof.
  revert s l; induction k as [|k IH]; intros s l; [reflexivity|].
  rewrite <- cons_seq, <- seq_shift. cbn [map]. rewrite map_map.
  destruct (skipn s l) as [|x r] eqn:E.
  - simpl firstn. simpl Zsum at 1.
    assert (Hlen : (List.length l <= s)%nat).
    { destruct (Nat.le_gt_cases (List.length l) s) as [Hle|Hgt]; [exact Hle|].
      apply (f_equal (@List.length Z)) in E. rewrite length_skipn in E.
      simpl in E. lia. }
    rewrite (nth_overflow l 0) by lia.
    assert (Hz : forall js, Zsum (map (fun j => nth (s + S j) l 0) js) = 0).
    { induction js; simpl; [reflexivity|].
      rewrite (nth_overflow l 0) by lia. now rewrite IHjs. }
    simpl Zsum. rewrite Hz. reflexivity.
  - simpl firstn. simpl Zsum.
    assert (Hx : nth (s + 0) l 0 = x).
    { rewrite Nat.add_0_r.
      rewrite <- (firstn_skipn s l) at 1. rewrite E.
      assert (Hs : (s <= List.length l)%nat).
      { destruct (Nat.le_gt_cases s (List.length l)) as [Hle|Hgt]; [exact Hle|].
        rewrite skipn_all2 in E by lia. discriminate. }
      rewrite app_nth2; rewrite length_firstn, Nat.min_l by exact Hs;
        [|lia].
      now rewrite Nat.sub_diag. }
    rewrite Hx. f_equal.
    assert (Hr : r = skipn (S s) l).
    { replace (S s) with (1 + s)%nat by lia.
      rewrite <- skipn_skipn, E. reflexivity. }
    rewrite Hr, IH. f_equal. apply map_ext. intro j. f_equal. lia.
Qed.

Lemma nth_map_seq {B : Type} (f : nat -> B) (n i : nat) (d : B) :
  (i < n)%nat -> nth i (map f (seq 0 n)) d = f i.
Proof.
  intro H.
  rewrite (nth_indep _ d (f 0%nat)) by now rewrite length_map, length_seq.
  rewrite (map_nth f (seq 0 n) 0%nat i), seq_nth by exact H. reflexivity.
Qed.

Lemma nth_rolling_mean (w : nat) (l : list Z) (i : nat) :
  (i < List.length l)%nat ->
  nth i (rolling_mean w l) None
  = if (S i <? w)%nat then None
    else Some (inject_Z (Zsum (firstn w (skipn (S i - w) l)))
               / inject_Z (Z.of_nat w))%Q.
Proof.
  intro H. unfold rolling_mean. now rewrite nth_map_seq.
Qed.

(** The rolling mean at a position with a full window is the mean the
    specification describes. *)
Lemma nth_avg_7d (tl : list TimelineRow) (i : nat) :
  (6 <= i < List.length tl)%nat ->
  nth i (avg_7d tl) None = Some (avg7_at (map tl_confirmed tl) i).
Proof.
  intros [H6 Hi]. unfold avg_7d.
  rewrite nth_rolling_mean by now rewrite length_new_cases.
  replace (S i <? 7)%nat with false by (symmetry; apply Nat.ltb_ge; lia).
  f_equal. unfold avg7_at. f_equal. f_equal.
  rewrite Zsum_window. unfold new_cases. simpl seq. simpl map. unfold Zsum.
  simpl fold_right.
  assert (Hn : forall j, (j <= i)%nat ->
                 nth j (fillna 0 (diff (map tl_confirmed tl))) 0
                 = new_case_at (map tl_confirmed tl) j).
  { intros j Hj. apply nth_new_cases. rewrite length_map. lia. }
  replace (i - 6 + 0)%nat with (i - 6)%nat by lia.
  replace (i - 6 + 1)%nat with (i - 5)%nat by lia.
  replace (i - 6 + 2)%nat with (i - 4)%nat by lia.
  replace (i - 6 + 3)%nat with (i - 3)%nat by lia.
  replace (i - 6 + 4)%nat with (i - 2)%nat by lia.
  replace (i - 6 + 5)%nat with (i - 1)%nat by lia.
  replace (i - 6 + 6)%nat with i by lia.
  rewrite !Hn by lia. ring.
Qed.

(** ** Rebound index *)

Lemma Qle_bool_false (x y : Q) : Qle_bool x y = false <-> (y < x)%Q.
Proof.
  split; intro H.
  - apply Qnot_le_lt. intro Hle. apply Qle_bool_iff in Hle. congruence.
  - destruct (Qle_bool x y) eqn:E; [|reflexivity].
    apply Qle_bool_iff in E. exfalso. exact (Qlt_not_le _ _ H E).
Qed.

Lemma fgt_Some (q c : Q) : fgt (Some q) c = true <-> (c < q)%Q.
Proof.
  unfold fgt. rewrite negb_true_iff. apply Qle_bool_false.
Qed.

Lemma fgt_Some_false (q c : Q) : fgt (Some q) c = false <-> (q <= c)%Q.
Proof.
  unfold fgt. rewrite negb_false_iff. apply Qle_bool_iff.
Qed.

Lemma verdict_thresholds (q : Q) :
  (verdict (Some q) = ReboundAlert <-> (1.2 < q)%Q)
  /\ (verdict (Some q) = UpwardTrend <-> (1.0 < q)%Q /\ (q <= 1.2)%Q)
  /\ (verdict (Some q) = StableOrDeclining <-> (q <= 1.0)%Q).
Proof.
  unfold verdict.
  destruct (fgt (Some q) 1.2) eqn:E1; [|destruct (fgt (Some q) 1.0) eqn:E2];
    rewrite ?fgt_Some, ?fgt_Some_false in *;
    (split; [|split]); split; intro H;
    try discriminate; try reflexivity; try lra.
Qed.

Lemma rebound_ratio_value (tl : list TimelineRow) :
  (14 <= List.length tl)%nat ->
  rebound_ratio tl
  = Ok (Some (if Qle_bool (avg7_at (map tl_confirmed tl) (List.length tl - 8)) 0
              then 0%Q
              else (avg7_at (map tl_confirmed tl) (List.length tl - 1)
                    / avg7_at (map tl_confirmed tl) (List.length tl - 8))%Q)).
Proof.
  intro H. unfold rebound_ratio.
  change (-1) with (- Z.of_nat 1). change (-8) with (- Z.of_nat 8).
  rewrite (iloc_from_end (avg_7d tl) 1 None) by (rewrite length_avg_7d; lia).
  rewrite (iloc_from_end (avg_7d tl) 8 None) by (rewrite length_avg_7d; lia).
  rewrite length_avg_7d, !nth_avg_7d by lia.
  simpl bind. unfold fgt.
  destruct (Qle_bool (avg7_at (map tl_confirmed tl) (List.length tl - 8)) 0)
    eqn:E; simpl; [reflexivity|].
  unfold true_div.
  destruct (Qeq_bool (avg7_at (map tl_confirmed tl) (List.length tl - 8)) 0)
    eqn:E0; [|reflexivity].
  apply Qeq_bool_eq in E0. apply Qle_bool_false in E.
  rewrite E0 in E. discriminate.
Qed.

(** C3 as stated fails: on fourteen days of falling counts the mean at
    position -8 is negative, the quotient of the two means is 10, yet the
    computed ratio is 0 and the verdict is "stable or declining", in exact
    arithmetic and in binary64 alike. *)
Lemma rebound_negative_denominator :
  timeline falling_table = falling
  /\ (14 <= List.length falling)%nat
  /\ Binary64.rebound falling
     = Ok (Binary64.ReboundIndex StableOrDeclining 0%float)
  /\ Binary64.avg7_at (map tl_confirmed falling) 6 = (-1)%float
  /\ Binary64.avg7_at (map tl_confirmed falling) 13 = (-10)%float
  /\ rebound falling = Ok (ReboundIndex StableOrDeclining (Some 0%Q))
  /\ (ratio_zero_guard (map tl_confirmed falling) == 10)%Q
  /\ ~ (0 == ratio_zero_guard (map tl_confirmed falling))%Q
  /\ verdict (Some (ratio_zero_guard (map tl_confirmed falling)))
     = ReboundAlert.
Proof.
  split; [vm_compute; reflexivity|].
  repeat split.
  - simpl; lia.
  - intro H. vm_compute in H. discriminate.
Qed.

(** ** Sorting *)

Section SortingFacts.

Context {A : Type}.
Variable leb : A -> A -> bool.

Lemma insert_sorted_perm (x : A) (l : list A) :
  Permutation (insert_sorted leb x l) (x :: l).
Proof.
  induction l as [|y l IH]; simpl; [reflexivity|].
  destruct (leb x y); [reflexivity|].
  rewrite IH. apply perm_swap.
Qed.

Lemma sort_by_perm (l : list A) : Permutation (sort_by leb l) l.
Proof.
  induction l as [|x l IH]; simpl; [reflexivity|].
  rewrite insert_sorted_perm. now constructor.
Qed.

Lemma sort_by_In (x : A) (l : list A) : In x (sort_by leb l) <-> In x l.
Proof.
  split; apply Permutation_in;
    [apply sort_by_perm | symmetry; apply sort_by_perm].
Qed.

Hypothesis leb_total : forall a b, leb a b = true \/ leb b a = true.
Hypothesis leb_trans :
  forall a b c, leb a b = true -> leb b c = true -> leb a c = true.

Lemma insert_sorted_sorted (x : A) (l : list A) :
  StronglySorted (fun a b => leb a b = true) l ->
  StronglySorted (fun a b => leb a b = true) (insert_sorted leb x l).
Proof.
  induction 1 as [|y l Hs IH Hy]; simpl.
  - constructor; constructor.
  - destruct (leb x y) eqn:E.
    + constructor; [constructor; assumption|].
      constructor; [exact E|].
      rewrite Forall_forall in *. intros z Hz.
      apply (leb_trans _ _ _ E). now apply Hy.
    + constructor; [exact IH|].
      rewrite Forall_forall in *. intros z Hz.
      apply (Permutation_in _ (insert_sorted_perm x l)) in Hz.
      destruct Hz as [<-|Hz]; [|now apply Hy].
      destruct (leb_total x y) as [H|H]; congruence.
Qed.

Lemma sort_by_sorted (l : list A) :
  StronglySorted (fun a b => leb a b = true) (sort_by leb l).
Proof.
  induction l as [|x l IH]; simpl; [constructor|].
  now apply insert_sorted_sorted.
Qed.

End SortingFacts.

Lemma StronglySorted_weaken {A : Type} (R S : A -> A -> Prop) (l : list A) :
  (forall a b, In a l -> In b l -> R a b -> S a b) ->
  StronglySorted R l -> StronglySorted S l.
Proof.
  intros HRS Hs. induction Hs as [|x l Hs IH Hx]; constructor.
  - apply IH. intros a b Ha Hb. apply HRS; now right.
  - rewrite Forall_forall in *. intros y Hy.
    apply HRS; [now left|now right|now apply Hx].
Qed.

(** The head of a sorted list is below every element. *)
Lemma StronglySorted_head {A : Type} (R : A -> A -> Prop) (x : A)
  (l : list A) :
  StronglySorted R (x :: l) -> forall y, In y l -> R x y.
Proof.
  intros H y Hy. inversion H as [|? ? _ Hx]; subst.
  rewrite Forall_forall in Hx. now apply Hx.
Qed.

(** ** Group keys *)

Lemma group_keys_date_In (d : Z) (keys : list Z) :
  In d (group_keys_date keys) <-> In d keys.
Proof.
  unfold group_keys_date. rewrite sort_by_In. apply nodup_In.
Qed.

Lemma group_keys_date_NoDup (keys : list Z) : NoDup (group_keys_date keys).
Proof.
  unfold group_keys_date.
  apply (Permutation_NoDup (l := nodup Z.eq_dec keys)).
  - symmetry. apply sort_by_perm.
  - apply NoDup_nodup.
Qed.

Lemma group_keys_date_length (keys : list Z) :
  List.length (group_keys_date keys) = List.length (nodup Z.eq_dec keys).
Proof. apply Permutation_length, sort_by_perm. Qed.

Lemma NoDup_sorted_strict (l : list Z) :
  NoDup l -> StronglySorted Z.le l -> StronglySorted Z.lt l.
Proof.
  intros Hn Hs. induction Hs as [|x l Hs IH Hx]; constructor.
  - apply IH. now inversion Hn.
  - inversion Hn as [|? ? Hnotin _]; subst.
    rewrite Forall_forall in *. intros y Hy.
    specialize (Hx y Hy).
    assert (x <> y) by (intros ->; contradiction). lia.
Qed.

Lemma group_keys_date_sorted (keys : list Z) :
  StronglySorted Z.lt (group_keys_date keys).
Proof.
  apply NoDup_sorted_strict; [apply group_keys_date_NoDup|].
  unfold group_keys_date.
  apply (StronglySorted_weaken (fun a b => Z.leb a b = true)).
  - intros a b _ _. apply Z.leb_le.
  - apply sort_by_sorted.
    + intros a b. rewrite !Z.leb_le. lia.
    + intros a b c. rewrite !Z.leb_le. lia.
Qed.

Lemma group_keys_country_In (c : string) (keys : list string) :
  In c (group_keys_country keys) <-> In c keys.
Proof.
  unfold group_keys_country. rewrite sort_by_In. apply nodup_In.
Qed.

Lemma group_keys_country_NoDup (keys : list string) :
  NoDup (group_keys_country keys).
Proof.
  unfold group_keys_country.
  apply (Permutation_NoDup (l := nodup string_dec keys)).
  - symmetry. apply sort_by_perm.
  - apply NoDup_nodup.
Qed.

Lemma group_keys_country_length (keys : list string) :
  List.length (group_keys_country keys)
  = List.length (nodup string_dec keys).
Proof. apply Permutation_length, sort_by_perm. Qed.

Lemma rows_of_country_In (c : string) (t : DataFrame) (r : Row) :
  In r (rows_of_country c t) <-> In r t /\ country_region r = c.
Proof.
  unfold rows_of_country. rewrite filter_In, String.eqb_eq. reflexivity.
Qed.

Lemma rows_of_date_In (d : Z) (t : DataFrame) (r : Row) :
  In r (rows_of_date d t) <-> In r t /\ file_date r = d.
Proof.
  unfold rows_of_date. rewrite filter_In, Z.eqb_eq. reflexivity.
Qed.

(** ** Timeline *)

Lemma timeline_dates (t : DataFrame) :
  map tl_file_date (timeline t) = group_keys_date (map file_date t).
Proof.
  unfold timeline. rewrite map_map. simpl. apply map_id.
Qed.

Lemma timeline_length (t : DataFrame) :
  List.length (timeline t)
  = List.length (nodup Z.eq_dec (map file_date t)).
Proof.
  rewrite <- group_keys_date_length, <- timeline_dates.
  now rewrite length_map.
Qed.

Lemma timeline_sorted (t : DataFrame) :
  StronglySorted (fun a b => tl_file_date a < tl_file_date b) (timeline t).
Proof.
  assert (H := group_keys_date_sorted (map file_date t)).
  rewrite <- timeline_dates in H.
  remember (timeline t) as tl eqn:E. clear E.
  induction tl as [|x tl IH]; [constructor|].
  simpl in H. inversion H as [|? ? Hs Hx]; subst.
  constructor; [now apply IH|].
  rewrite Forall_forall in *. intros y Hy. apply Hx. now apply in_map.
Qed.

Lemma timeline_row (t : DataFrame) (row : TimelineRow) :
  In row (timeline t) ->
  In (tl_file_date row) (map file_date t)
  /\ tl_confirmed row
     = Zsum (map confirmed (rows_of_date (tl_file_date row) t))
  /\ tl_deaths row = Zsum (map deaths (rows_of_date (tl_file_date row) t))
  /\ tl_recovered row
     = Zsum (map recovered (rows_of_date (tl_file_date row) t))
  /\ tl_active row = Zsum (map active (rows_of_date (tl_file_date row) t)).
Proof.
  unfold timeline. intro H. apply in_map_iff in H.
  destruct H as (d & <- & Hd). simpl.
  rewrite group_keys_date_In in Hd. repeat split; try reflexivity. exact Hd.
Qed.

Lemma Zsum_nonneg (l : list Z) : Forall (fun x => 0 <= x) l -> 0 <= Zsum l.
Proof. induction 1; simpl; lia. Qed.

Lemma Zsum_confirmed_nonneg (t : DataFrame) :
  Forall (fun r => 0 <= confirmed r) t -> 0 <= Zsum (map confirmed t).
Proof.
  intro H. apply Zsum_nonneg. rewrite Forall_forall in *.
  intros x Hx. apply in_map_iff in Hx. destruct Hx as (r & <- & Hr).
  now apply H.
Qed.

(** ** KPIs *)

Lemma df_last_day_In (df : DataFrame) (sel : Selection) (r : Row) :
  In r (df_last_day df sel)
  <-> In r (df_filtered df sel) /\ dt_date (file_date r) = end_date sel.
Proof.
  unfold df_last_day. rewrite filter_In, Z.eqb_eq. reflexivity.
Qed.

Lemma df_filtered_In (df : DataFrame) (sel : Selection) (r : Row) :
  In r (df_filtered df sel) <-> In r df /\ row_selected sel r = true.
Proof.
  rewrite df_filtered_row_selected. apply filter_In.
Qed.

Lemma kpi_confirmed_sum (t : DataFrame) :
  kpi_confirmed t = Zsum (map confirmed t).
Proof. destruct t; reflexivity. Qed.

Lemma kpi_deaths_sum (t : DataFrame) : kpi_deaths t = Zsum (map deaths t).
Proof. destruct t; reflexivity. Qed.

(** C4. The KPI totals are the sums of [confirmed] and [deaths] over the
    filtered rows dated exactly on the selected end date; with no such row
    both are zero; the fatality rate is deaths / confirmed * 100, it is 0
    when the confirmed total is zero, and computing it never divides by
    zero.  Counts are non-negative, as the data model has them. *)
Theorem kpi_totals (df : DataFrame) (sel : Selection)
  (Hcounts : Forall (fun r => 0 <= confirmed r) df) :
  let last := df_last_day df sel in
  last = filter (fun r => dt_date (file_date r) =? end_date sel)
                (df_filtered df sel)
  /\ (forall r, In r last
                <-> In r (df_filtered df sel)
                    /\ dt_date (file_date r) = end_date sel)
  /\ kpi_confirmed last = Zsum (map confirmed last)
  /\ kpi_deaths last = Zsum (map deaths last)
  /\ (last = [] -> kpi_confirmed last = 0 /\ kpi_deaths last = 0)
  /\ exists rate : Q,
       fatality_rate (kpi_deaths last) (kpi_confirmed last) = Ok rate
       /\ (kpi_confirmed last = 0 -> rate = 0%Q)
       /\ (kpi_confirmed last <> 0 ->
           rate = (inject_Z (kpi_deaths last)
                   / inject_Z (kpi_confirmed last) * 100)%Q).
Proof.
  intro last.
  split; [reflexivity|].
  split; [intro r; apply df_last_day_In|].
  split; [apply kpi_confirmed_sum|].
  split; [apply kpi_deaths_sum|].
  split; [intro E; rewrite E; now split|].
  rewrite fatality_rate_value. eexists. split; [reflexivity|].
  assert (Hpos : 0 <= kpi_confirmed last).
  { rewrite kpi_confirmed_sum. apply Zsum_confirmed_nonneg.
    rewrite Forall_forall in *. intros r Hr. apply Hcounts.
    apply df_last_day_In in Hr. destruct Hr as [Hr _].
    now apply df_filtered_In in Hr. }
  split; intro H.
  - rewrite H. reflexivity.
  - replace (0 <? kpi_confirmed last) with true
      by (symmetry; apply Z.ltb_lt; lia).
    reflexivity.
Qed.

(** Example 2 of the specification. *)
Lemma kpi_totals_witness :
  Forall (fun r => 0 <= confirmed r) two_rows
  /\ map confirmed (df_last_day two_rows day_1) = [30; 70]
  /\ map deaths (df_last_day two_rows day_1) = [1; 2]
  /\ kpi_confirmed (df_last_day two_rows day_1) = 100
  /\ kpi_deaths (df_last_day two_rows day_1) = 3
  /\ exists rate : Q,
       fatality_rate (kpi_deaths (df_last_day two_rows day_1))
                     (kpi_confirmed (df_last_day two_rows day_1)) = Ok rate
       /\ (rate == 3)%Q
       /\ format_2f rate = "3.00".
Proof.
  assert (H : Forall (fun r => 0 <= confirmed r) two_rows)
    by (repeat constructor; simpl; lia).
  split; [exact H|].
  destruct (kpi_totals two_rows day_1 H)
    as (_ & _ & Hc & Hd & _ & rate & Hr & _ & Hv).
  split; [reflexivity|]. split; [reflexivity|].
  split; [rewrite Hc; reflexivity|].
  split; [rewrite Hd; reflexivity|].
  exists rate. split; [exact Hr|].
  rewrite Hv by (rewrite Hc; discriminate).
  split; reflexivity.
Defined.

(** ** Conclusions *)

Lemma rebound_total (tl : list TimelineRow) :
  exists reb, rebound tl = Ok reb.
Proof.
  unfold rebound. destruct (14 <=? List.length tl)%nat eqn:E.
  - apply Nat.leb_le in E. rewrite (rebound_ratio_value tl E).
    eexists. reflexivity.
  - eexists. reflexivity.
Qed.

Lemma rebound_below_14 (tl : list TimelineRow) :
  (List.length tl < 14)%nat -> rebound tl = Ok NeedFourteenDays.
Proof.
  intro H. unfold rebound.
  replace (14 <=? List.length tl)%nat with false
    by (symmetry; apply Nat.leb_gt; exact H).
  reflexivity.
Qed.

Lemma conclusions_insufficient (tl : list TimelineRow) :
  (List.length tl <= 1)%nat -> conclusions tl = Ok InsufficientData.
Proof.
  intro H. unfold conclusions.
  replace (1 <? List.length tl)%nat with false
    by (symmetry; apply Nat.ltb_ge; exact H).
  now rewrite andb_false_r.
Qed.

Lemma conclusions_growth (tl : list TimelineRow) (d : TimelineRow) :
  (2 <= List.length tl)%nat ->
  exists g reb,
    growth_rate (tl_confirmed (nth 0 tl d))
                (tl_confirmed (nth (List.length tl - 1) tl d)) = Ok g
    /\ rebound tl = Ok reb
    /\ conclusions tl
       = Ok (Growth g (tl_confirmed (nth 0 tl d))
                    (tl_confirmed (nth (List.length tl - 1) tl d)) reb).
Proof.
  intro H. unfold conclusions.
  replace (1 <? List.length tl)%nat with true
    by (symmetry; apply Nat.ltb_lt; lia).
  replace (empty tl) with false by (destruct tl; [simpl in H; lia|reflexivity]).
  simpl andb. cbv iota.
  change 0 with (Z.of_nat 0) at 1. change (-1) with (- Z.of_nat 1).
  rewrite (iloc_nth tl 0 d) by lia.
  rewrite (iloc_from_end tl 1 d) by lia.
  simpl bind.
  destruct (rebound_total tl) as [reb Hreb].
  rewrite growth_rate_value, Hreb. simpl bind.
  eexists. eexists. repeat split; reflexivity.
Qed.

(** C7. A rebound ratio and verdict are produced only from 14 timeline
    points on: with fewer points no ratio is computed and the page shows an
    explicit message instead, either that 14 days are needed or, with fewer
    than two points, that the data is insufficient. *)
Theorem rebound_needs_14_points (tl : list TimelineRow)
  (H : (List.length tl < 14)%nat) :
  rebound tl = Ok NeedFourteenDays
  /\ (forall g s e v ratio,
         conclusions tl <> Ok (Growth g s e (ReboundIndex v ratio)))
  /\ forall page : list Element,
       (conclusions tl = Ok InsufficientData
        /\ (do c <- eval (conclusions tl); show_conclusion c) page
           = ((page ++ [InsufficientDataMessage])%list, Ok tt))
       \/ (exists g s e,
              conclusions tl = Ok (Growth g s e NeedFourteenDays)
              /\ (do c <- eval (conclusions tl); show_conclusion c) page
                 = ((page ++ [GrowthInfo (format_2f g) s e;
                              NeedFourteenDaysMessage])%list, Ok tt)).
Proof.
  assert (Hreb := rebound_below_14 tl H).
  destruct (Nat.le_gt_cases (List.length tl) 1) as [H1|H2].
  - assert (Hc := conclusions_insufficient tl H1).
    split; [exact Hreb|]. split.
    + intros. rewrite Hc. discriminate.
    + intro page. left. split; [exact Hc|].
      unfold seq_bind, eval. rewrite Hc. reflexivity.
  - destruct (conclusions_growth tl (mkTimelineRow 0 0 0 0 0))
      as (g & reb & _ & Hr & Hc); [lia|].
    rewrite Hreb in Hr. injection Hr as <-.
    split; [exact Hreb|]. split.
    + intros. rewrite Hc. discriminate.
    + intro page. right. eexists. eexists. eexists.
      split; [exact Hc|].
      cbv [seq_bind eval]. rewrite Hc.
      cbv [seq_bind show_conclusion show_rebound st_show].
      now rewrite <- app_assoc.
Qed.

Lemma rebound_needs_14_points_witness :
  (List.length two_points < 14)%nat
  /\ rebound two_points = Ok NeedFourteenDays
  /\ fst ((do c <- eval (conclusions two_points); show_conclusion c) [])
     = [GrowthInfo "50.00" 100 150; NeedFourteenDaysMessage].
Proof.
  assert (H : (List.length two_points < 14)%nat) by (simpl; lia).
  split; [exact H|].
  destruct (rebound_needs_14_points _ H) as (Hr & _ & Hp).
  split; [exact Hr|].
  destruct (Hp []) as [[Hc _]|(g & s & e & Hc & Hs)].
  - discriminate Hc.
  - reflexivity.
Defined.

Lemma first_last_split {A : Type} (l : list A) (d : A) :
  (2 <= List.length l)%nat ->
  exists first mid last,
    l = first :: mid ++ [last]
    /\ nth 0 l d = first
    /\ nth (List.length l - 1) l d = last.
Proof.
  intro H. destruct l as [|first l]; [simpl in H; lia|].
  destruct (@exists_last _ l) as (mid & last & E).
  { intro E. subst l. simpl in H. lia. }
  exists first, mid, last. subst l. repeat split.
  change (first :: mid ++ [last]) with ((first :: mid) ++ [last])%list.
  rewrite app_nth2; rewrite length_app; simpl List.length; [|lia].
  replace (S (List.length mid) + 1 - 1 - S (List.length mid))%nat
    with 0%nat by lia.
  reflexivity.
Qed.

Lemma timeline_confirmed_nonneg (t : DataFrame) (row : TimelineRow) :
  Forall (fun r => 0 <= confirmed r) t ->
  In row (timeline t) -> 0 <= tl_confirmed row.
Proof.
  intros Hc Hin. destruct (timeline_row t row Hin) as (_ & -> & _).
  apply Zsum_confirmed_nonneg. rewrite Forall_forall in *.
  intros r Hr. apply rows_of_date_In in Hr. now apply Hc.
Qed.

(** C5. With a timeline of at least two rows, sorted by date, the growth
    rate is computed from its first and last rows as
    (confirmed_end - confirmed_start) / confirmed_start * 100; when
    confirmed_start is zero it is 0 if confirmed_end is zero too and 100
    otherwise.  Counts are non-negative, as the data model has them. *)
Theorem growth_rate_first_last (t : DataFrame)
  (Hcounts : Forall (fun r => 0 <= confirmed r) t)
  (Hrows : (2 <= List.length (timeline t))%nat) :
  exists first mid last g reb,
    timeline t = first :: mid ++ [last]
    /\ StronglySorted (fun a b => tl_file_date a < tl_file_date b)
                      (timeline t)
    /\ conclusions (timeline t)
       = Ok (Growth g (tl_confirmed first) (tl_confirmed last) reb)
    /\ (tl_confirmed first <> 0 ->
        g = (inject_Z (tl_confirmed last - tl_confirmed first)
             / inject_Z (tl_confirmed first) * 100)%Q)
    /\ (tl_confirmed first = 0 -> tl_confirmed last = 0 -> g = 0%Q)
    /\ (tl_confirmed first = 0 -> tl_confirmed last <> 0 -> g = 100%Q).
Proof.
  pose (d := mkTimelineRow 0 0 0 0 0).
  destruct (first_last_split (timeline t) d Hrows)
    as (first & mid & last & E & Hfirst & Hlast).
  destruct (conclusions_growth (timeline t) d Hrows)
    as (g & reb & Hg & _ & Hc).
  rewrite Hfirst, Hlast in Hg, Hc.
  exists first, mid, last, g, reb.
  split; [exact E|]. split; [apply timeline_sorted|]. split; [exact Hc|].
  assert (Hpos : 0 <= tl_confirmed first).
  { apply (timeline_confirmed_nonneg t); [exact Hcounts|].
    rewrite E. now left. }
  rewrite growth_rate_value in Hg. injection Hg as <-.
  split; [|split].
  - intro Hne.
    replace (0 <? tl_confirmed first) with true
      by (symmetry; apply Z.ltb_lt; lia).
    reflexivity.
  - intros H1 H2. rewrite H1, H2. reflexivity.
  - intros H1 Hne. rewrite H1. simpl.
    destruct (tl_confirmed last =? 0) eqn:E0; [|reflexivity].
    apply Z.eqb_eq in E0. contradiction.
Qed.

(** Example 1 of the specification. *)
Lemma growth_rate_first_last_witness :
  Forall (fun r => 0 <= confirmed r) two_dates
  /\ (2 <= List.length (timeline two_dates))%nat
  /\ map tl_confirmed (timeline two_dates) = [100; 150]
  /\ exists g reb,
       conclusions (timeline two_dates) = Ok (Growth g 100 150 reb)
       /\ (g == 50)%Q
       /\ format_2f g = "50.00".
Proof.
  assert (H : Forall (fun r => 0 <= confirmed r) two_dates)
    by (repeat constructor; simpl; lia).
  assert (H2 : (2 <= List.length (timeline two_dates))%nat)
    by (vm_compute; lia).
  split; [exact H|]. split; [exact H2|]. split; [reflexivity|].
  destruct (growth_rate_first_last two_dates H H2)
    as (first & mid & last & g & reb & _ & _ & Hc & _).
  exists g, reb.
  change (conclusions (timeline two_dates))
    with (Ok (Growth (5000 # 100) 100 150 NeedFourteenDays)) in Hc.
  injection Hc as Hg _ _ Hreb. subst g reb.
  repeat split.
Defined.

(** The conclusions taken alone.  The timeline has one row per distinct
    [file_date] of the filtered table.  With zero or one row the
    conclusions compute neither a growth rate nor a rebound index and
    report that the data is insufficient; with two rows or more a growth
    rate is produced. *)
Lemma conclusions_need_two_rows (t : DataFrame) :
  List.length (timeline t)
  = List.length (nodup Z.eq_dec (map file_date t))
  /\ (conclusions (timeline t) = Ok InsufficientData
      <-> (List.length (timeline t) <= 1)%nat)
  /\ ((List.length (timeline t) <= 1)%nat ->
      forall page : list Element,
        (do c <- eval (conclusions (timeline t)); show_conclusion c) page
        = ((page ++ [InsufficientDataMessage])%list, Ok tt))
  /\ ((2 <= List.length (timeline t))%nat ->
      exists g s e reb, conclusions (timeline t) = Ok (Growth g s e reb)).
Proof.
  split; [apply timeline_length|].
  split; [|split].
  - split; [|apply conclusions_insufficient].
    intro Hc.
    destruct (Nat.le_gt_cases (List.length (timeline t)) 1) as [H|H];
      [exact H|].
    destruct (conclusions_growth (timeline t) (mkTimelineRow 0 0 0 0 0))
      as (g & reb & _ & _ & Hg); [lia|].
    rewrite Hg in Hc. discriminate.
  - intros H page. cbv [seq_bind eval].
    rewrite (conclusions_insufficient _ H). reflexivity.
  - intro H.
    destruct (conclusions_growth (timeline t) (mkTimelineRow 0 0 0 0 0) H)
      as (g & reb & _ & _ & Hg).
    do 4 eexists. exact Hg.
Qed.

Lemma conclusions_need_two_rows_witness :
  (List.length (timeline two_rows) <= 1)%nat
  /\ conclusions (timeline two_rows) = Ok InsufficientData
  /\ exists g s e reb,
       conclusions (timeline two_dates) = Ok (Growth g s e reb).
Proof.
  assert (H : (List.length (timeline two_rows) <= 1)%nat)
    by (vm_compute; lia).
  split; [exact H|]. split.
  - apply (proj2 (proj1 (proj2 (conclusions_need_two_rows two_rows))) H).
  - apply (proj2 (proj2 (proj2 (conclusions_need_two_rows two_dates)))).
    vm_compute; lia.
Defined.

(** ** The page when the end-date subset is empty *)

Lemma run_empty_last_day (df : DataFrame) (sel : Selection) :
  df_last_day df sel = [] ->
  run df sel
  = ([ MetricCount "Total Confirmados" 0;
       MetricCount "Total Fallecidos" 0;
       MetricRate "Tasa de Letalidad" "0.00%";
       if negb (empty (timeline (df_filtered df sel)))
       then LineChart (timeline (df_filtered df sel)) else NoTimeline ],
     Raise (NameError "country_totals")).
Proof.
  intro H. unfold run, app. rewrite H.
  cbv [kpi_confirmed kpi_deaths empty negb fatality_rate Z.ltb Z.compare
       seq_bind eval st_show map_data country_totals app].
  change (format_2f 0 ++ "%") with "0.00%".
  destruct (timeline (df_filtered df sel)); reflexivity.
Qed.

(** C1, on the input where it fails.  Selecting country A on day 2 alone
    leaves no row: the KPIs are zero and the timeline shows its placeholder,
    then the map step raises [NameError] and the map, the conclusions and
    the ranking are never rendered. *)
Theorem empty_selection_stops_the_page :
  df_filtered two_days only_A_on_day_2 = []
  /\ run two_days only_A_on_day_2
     = ([ MetricCount "Total Confirmados" 0;
          MetricCount "Total Fallecidos" 0;
          MetricRate "Tasa de Letalidad" "0.00%";
          NoTimeline ],
        Raise (NameError "country_totals")).
Proof. split; reflexivity. Qed.

(** ** Ranking *)

Lemma fold_left_max_spec (l : list Z) (x : Z) :
  (fold_left Z.max l x = x \/ In (fold_left Z.max l x) l)
  /\ x <= fold_left Z.max l x
  /\ forall y, In y l -> y <= fold_left Z.max l x.
Proof.
  revert x; induction l as [|a l IH]; intro x; simpl.
  - split; [now left|]. split; [lia|]. intros y [].
  - destruct (IH (Z.max x a)) as (Hin & Hle & Hall).
    split; [|split].
    + destruct Hin as [E|Hin]; [|right; now right].
      rewrite E. destruct (Z.max_spec x a) as [[_ ->]|[_ ->]];
        [right; now left|now left].
    + lia.
    + intros y [<-|Hy]; [lia|now apply Hall].
Qed.

Lemma Zmax_list_spec (l : list Z) :
  l <> [] ->
  In (Zmax_list l) l /\ forall y, In y l -> y <= Zmax_list l.
Proof.
  destruct l as [|x l]; [congruence|]. intros _. simpl.
  destruct (fold_left_max_spec l x) as (Hin & Hle & Hall).
  split.
  - destruct Hin as [->|Hin]; [now left|now right].
  - intros y [<-|Hy]; [exact Hle|now apply Hall].
Qed.

Lemma group_max_active_countries (t : DataFrame) :
  map fst (group_max_active t) = group_keys_country (map country_region t).
Proof.
  unfold group_max_active. rewrite map_map. simpl. apply map_id.
Qed.

Lemma group_max_active_value (t : DataFrame) (c : string) (v : Z) :
  In (c, v) (group_max_active t) ->
  (exists r, In r t /\ country_region r = c /\ active r = v)
  /\ forall r, In r t -> country_region r = c -> active r <= v.
Proof.
  unfold group_max_active. intro H. apply in_map_iff in H.
  destruct H as (c' & E & Hc). injection E as -> <-.
  rewrite group_keys_country_In in Hc. apply in_map_iff in Hc.
  destruct Hc as (r0 & Hr0 & Hin0).
  assert (Hne : map active (rows_of_country c t) <> []).
  { intro E.
    assert (Hr : In r0 (rows_of_country c t))
      by (apply rows_of_country_In; now split).
    apply (in_map active) in Hr. rewrite E in Hr. exact Hr. }
  destruct (Zmax_list_spec _ Hne) as (Hin & Hall). split.
  - apply in_map_iff in Hin. destruct Hin as (r & Hr & Hrin).
    apply rows_of_country_In in Hrin. exists r. tauto.
  - intros r Hr Hrc. apply Hall. apply in_map.
    apply rows_of_country_In. now split.
Qed.

Lemma StronglySorted_app {A : Type} (R : A -> A -> Prop) (l1 l2 : list A) :
  StronglySorted R (l1 ++ l2)%list ->
  forall a b, In a l1 -> In b l2 -> R a b.
Proof.
  induction l1 as [|x l1 IH]; simpl; intros Hs a b Ha Hb; [contradiction|].
  inversion Hs as [|? ? Hs' Hx]; subst.
  destruct Ha as [<-|Ha].
  - rewrite Forall_forall in Hx. apply Hx. apply in_or_app. now right.
  - now apply IH.
Qed.

Lemma sort_active_desc_sorted (s : list (string * Z)) :
  StronglySorted (fun a b => snd b <= snd a) (sort_active_desc s).
Proof.
  unfold sort_active_desc.
  apply (StronglySorted_weaken
           (fun a b : string * Z => (snd b <=? snd a) = true)).
  - intros a b _ _. apply Z.leb_le.
  - apply sort_by_sorted.
    + intros a b. rewrite !Z.leb_le. lia.
    + intros a b c. rewrite !Z.leb_le. lia.
Qed.

(** C9. The ranking has one entry per country of the end-date subset, its
    value the maximum [active] over that country's rows (not their sum);
    the entries are sorted by descending value and the first ten are kept,
    all of them when there are fewer; no country left out has a larger
    value than a country kept. *)
Theorem top_active_ranking (t : DataFrame) :
  exists ranked : list (string * Z),
    top_active t = firstn 10 ranked
    /\ Permutation ranked (group_max_active t)
    /\ StronglySorted (fun a b => snd b <= snd a) ranked
    /\ NoDup (map fst (group_max_active t))
    /\ (forall c, In c (map fst (group_max_active t))
                  <-> In c (map country_region t))
    /\ (forall c v,
           In (c, v) (group_max_active t) ->
           (exists r, In r t /\ country_region r = c /\ active r = v)
           /\ forall r, In r t -> country_region r = c -> active r <= v)
    /\ List.length (top_active t)
       = Nat.min 10 (List.length (nodup string_dec (map country_region t)))
    /\ (forall a b,
           In a (top_active t) -> In b (skipn 10 ranked) -> snd b <= snd a).
Proof.
  exists (sort_active_desc (group_max_active t)).
  split; [reflexivity|].
  split; [apply sort_by_perm|].
  split; [apply sort_active_desc_sorted|].
  split; [rewrite group_max_active_countries; apply group_keys_country_NoDup|].
  split; [intro c; rewrite group_max_active_countries;
          apply group_keys_country_In|].
  split; [apply group_max_active_value|].
  split.
  - unfold top_active. rewrite length_firstn. f_equal.
    unfold sort_active_desc.
    rewrite (Permutation_length (sort_by_perm _ (group_max_active t))).
    rewrite <- group_keys_country_length, <- group_max_active_countries.
    now rewrite length_map.
  - intros a b Ha Hb. unfold top_active in Ha.
    apply (StronglySorted_app (fun a b => snd b <= snd a)
             (firstn 10 (sort_active_desc (group_max_active t)))
             (skipn 10 (sort_active_desc (group_max_active t))));
      [|exact Ha|exact Hb].
    rewrite firstn_skipn. apply sort_active_desc_sorted.
Qed.

(** Example 3 of the specification. *)
Lemma top_active_ranking_witness :
  map active duplicates = [5; 5; 9]
  /\ top_active duplicates = [("A", 9)]
  /\ forall r, In r duplicates -> country_region r = "A" -> active r <= 9.
Proof.
  split; [reflexivity|]. split; [reflexivity|].
  destruct (top_active_ranking duplicates)
    as (ranked & _ & _ & _ & _ & _ & Hv & _).
  apply (Hv "A" 9). now left.
Defined.

(** ** Map *)

Lemma sort_confirmed_desc_head (t : DataFrame) (best : Row)
  (rest : DataFrame) :
  sort_confirmed_desc t = best :: rest ->
  In best t /\ forall r, In r t -> confirmed r <= confirmed best.
Proof.
  intro E. unfold sort_confirmed_desc in E.
  assert (Hs := sort_by_sorted (fun a b : Row => confirmed b <=? confirmed a)
                  (fun a b => ltac:(rewrite !Z.leb_le; lia))
                  (fun a b c => ltac:(rewrite !Z.leb_le; lia)) t).
  assert (Hin : forall r, In r (best :: rest) <-> In r t)
    by (intro r; rewrite <- E; apply sort_by_In).
  rewrite E in Hs. split; [apply Hin; now left|].
  intros r Hr. apply Hin in Hr. destruct Hr as [<-|Hr]; [lia|].
  apply Z.leb_le.
  exact (StronglySorted_head _ _ _ Hs r Hr).
Qed.

Lemma fix_coords_override (t : DataFrame) (row : CountryTotal) (c : Coord) :
  dict_lookup COUNTRY_COORDS (ct_country_region row) = Some c ->
  fix_coords t row = Ok (Some (coord_lat c), Some (coord_long c)).
Proof.
  intro H. unfold fix_coords, dict_mem, dict_index. rewrite H. reflexivity.
Qed.

Lemma fix_coords_fallback (t : DataFrame) (row : CountryTotal) :
  dict_lookup COUNTRY_COORDS (ct_country_region row) = None ->
  In (ct_country_region row) (map country_region t) ->
  exists best,
    In best t
    /\ country_region best = ct_country_region row
    /\ (forall r, In r t -> country_region r = ct_country_region row ->
                  confirmed r <= confirmed best)
    /\ fix_coords t row = Ok (lat best, long_ best).
Proof.
  intros H Hin. unfold fix_coords, dict_mem. rewrite H.
  apply in_map_iff in Hin. destruct Hin as (r0 & Hr0 & Hin0).
  assert (Hr : In r0 (sort_confirmed_desc
                        (rows_of_country (ct_country_region row) t))).
  { apply sort_by_In, rows_of_country_In. now split. }
  destruct (sort_confirmed_desc (rows_of_country (ct_country_region row) t))
    as [|best rest] eqn:E.
  - contradiction.
  - destruct (sort_confirmed_desc_head _ _ _ E) as (Hb & Hmax).
    apply rows_of_country_In in Hb. destruct Hb as (Hb & Hbc).
    exists best. split; [exact Hb|]. split; [exact Hbc|]. split.
    + intros r Hrin Hrc. apply Hmax. apply rows_of_country_In. now split.
    + reflexivity.
Qed.

Lemma fix_coords_total (t : DataFrame) (row : CountryTotal) :
  exists c, fix_coords t row = Ok c.
Proof.
  unfold fix_coords, dict_mem, dict_index.
  destruct (dict_lookup COUNTRY_COORDS (ct_country_region row));
    eexists; reflexivity.
Qed.

Lemma apply_fix_coords_spec (t : DataFrame) (rows : list CountryTotal) :
  exists fixed,
    apply_fix_coords t rows = Ok fixed
    /\ Forall2 (fun row e =>
                  ct_country_region e = ct_country_region row
                  /\ ct_confirmed e = ct_confirmed row
                  /\ fix_coords t row = Ok (ct_lat e, ct_long_ e))
               rows fixed.
Proof.
  induction rows as [|row rows (fixed & E & Hf)]; simpl.
  - exists []. split; [reflexivity|constructor].
  - destruct (fix_coords_total t row) as ([la lo] & Hc).
    rewrite Hc, E. simpl. eexists. split; [reflexivity|].
    constructor; [|exact Hf]. simpl. now rewrite Hc.
Qed.

Lemma Forall2_In_r {A B : Type} (R : A -> B -> Prop) (l : list A)
  (l' : list B) (y : B) :
  Forall2 R l l' -> In y l' -> exists x, In x l /\ R x y.
Proof.
  induction 1 as [|a b l l' Hab _ IH]; simpl; [contradiction|].
  intros [<-|Hy].
  - exists a. split; [now left|exact Hab].
  - destruct (IH Hy) as (x & Hx & Hr). exists x. split; [now right|exact Hr].
Qed.

Lemma Forall2_map_eq {A B C : Type} (R : A -> B -> Prop) (f : A -> C)
  (g : B -> C) (l : list A) (l' : list B) :
  (forall a b, R a b -> g b = f a) ->
  Forall2 R l l' -> map g l' = map f l.
Proof.
  intros Hfg. induction 1 as [|a b l l' Hab _ IH]; simpl; [reflexivity|].
  now rewrite (Hfg a b Hab), IH.
Qed.

Lemma group_totals_countries (t : DataFrame) :
  map ct_country_region (group_totals t)
  = group_keys_country (map country_region t).
Proof.
  unfold group_totals. rewrite map_map. simpl. apply map_id.
Qed.

(** Every row belongs to exactly one group, so the group sums add up to
    the sum over the table. *)
Lemma Zsum_map_add {A : Type} (f g : A -> Z) (l : list A) :
  Zsum (map (fun x => f x + g x) l) = Zsum (map f l) + Zsum (map g l).
Proof. induction l; simpl; lia. Qed.

Lemma Zsum_indicator (k : string) (v : Z) (keys : list string) :
  NoDup keys ->
  Zsum (map (fun c => if String.eqb k c then v else 0) keys)
  = if in_dec string_dec k keys then v else 0.
Proof.
  intro Hnd. induction Hnd as [|c ks Hnotin Hnd IH]; simpl; [reflexivity|].
  rewrite IH. destruct (String.eqb_spec k c) as [E|Hne].
  - destruct (string_dec c k) as [Hck|Hck]; [|congruence].
    destruct (in_dec string_dec k ks) as [Hin|Hin]; [|lia].
    rewrite E in Hin. contradiction.
  - destruct (string_dec c k) as [Hck|Hck]; [congruence|].
    destruct (in_dec string_dec k ks); lia.
Qed.

Lemma Zsum_groups (keys : list string) (t : DataFrame) :
  NoDup keys ->
  (forall r, In r t -> In (country_region r) keys) ->
  Zsum (map (fun c => Zsum (map confirmed (rows_of_country c t))) keys)
  = Zsum (map confirmed t).
Proof.
  intros Hnd. induction t as [|r t IH]; intro Hkeys.
  - simpl. induction keys; simpl; [reflexivity|].
    inversion Hnd; subst. rewrite IHkeys; [reflexivity|assumption|].
    intros r [].
  - rewrite (map_ext _
               (fun c => (if String.eqb (country_region r) c
                          then confirmed r else 0)
                         + Zsum (map confirmed (rows_of_country c t)))).
    + rewrite Zsum_map_add, IH, (Zsum_indicator _ _ _ Hnd).
      * destruct (in_dec string_dec (country_region r) keys) as [_|Hn];
          [reflexivity|].
        exfalso. apply Hn, Hkeys. now left.
      * intros r' Hr'. apply Hkeys. now right.
    + intro c. unfold rows_of_country. simpl.
      destruct (String.eqb (country_region r) c); reflexivity.
Qed.

Lemma group_totals_sum (t : DataFrame) :
  Zsum (map ct_confirmed (group_totals t)) = Zsum (map confirmed t).
Proof.
  unfold group_totals. rewrite map_map. simpl.
  apply Zsum_groups.
  - apply group_keys_country_NoDup.
  - intros r Hr. apply group_keys_country_In. now apply in_map.
Qed.

Lemma dropna_coords_In (rows : list CountryTotal) (e : CountryTotal) :
  In e (dropna_coords rows)
  <-> In e rows /\ ct_lat e <> None /\ ct_long_ e <> None.
Proof.
  unfold dropna_coords. rewrite filter_In, andb_true_iff.
  destruct (ct_lat e), (ct_long_ e); simpl; intuition congruence.
Qed.

(** C2. When the end-date subset has rows, coordinates are resolved per
    country: a country of the override table gets the table's coordinate,
    so "US" always gets (37.0902, -95.7129) and stays on the map whatever
    its rows carry; any other country gets the coordinate of one of its
    rows with the highest [confirmed] on the end date; a country left
    without a coordinate is dropped from the map table, while it remains
    a candidate of the ranking and its cases remain in the KPI total. *)
Theorem coordinates_prefer_overrides (df : DataFrame) (sel : Selection)
  (Hrows : df_last_day df sel <> []) :
  let last := df_last_day df sel in
  exists fixed : list CountryTotal,
    apply_fix_coords last (group_totals last) = Ok fixed
    /\ map_data last = Ok (dropna_coords fixed)
    /\ map ct_country_region fixed
       = group_keys_country (map country_region last)
    /\ (forall e c,
           In e fixed ->
           dict_lookup COUNTRY_COORDS (ct_country_region e) = Some c ->
           ct_lat e = Some (coord_lat c) /\ ct_long_ e = Some (coord_long c))
    /\ (forall e,
           In e fixed -> ct_country_region e = "US" ->
           ct_lat e = Some 37.0902%Q /\ ct_long_ e = Some (-95.7129)%Q)
    /\ (In "US" (map country_region last) ->
        exists e, In e (dropna_coords fixed) /\ ct_country_region e = "US")
    /\ (forall e,
           In e fixed ->
           dict_lookup COUNTRY_COORDS (ct_country_region e) = None ->
           exists best,
             In best last
             /\ country_region best = ct_country_region e
             /\ (forall r, In r last ->
                           country_region r = ct_country_region e ->
                           confirmed r <= confirmed best)
             /\ ct_lat e = lat best /\ ct_long_ e = long_ best)
    /\ (forall e, In e (dropna_coords fixed)
                  <-> In e fixed /\ ct_lat e <> None /\ ct_long_ e <> None)
    /\ map fst (group_max_active last) = map ct_country_region fixed
    /\ kpi_confirmed last = Zsum (map ct_confirmed fixed).
Proof.
  intro last. unfold last. clear last.
  remember (df_last_day df sel) as last eqn:Elast.
  destruct (apply_fix_coords_spec last (group_totals last))
    as (fixed & Hfix & Hrel).
  assert (Hcountries : map ct_country_region fixed
                       = map ct_country_region (group_totals last)).
  { apply (Forall2_map_eq _ _ _ _ _ (fun a b H => proj1 H) Hrel). }
  assert (Hconfirmed : map ct_confirmed fixed
                       = map ct_confirmed (group_totals last)).
  { apply (Forall2_map_eq _ _ _ _ _ (fun a b H => proj1 (proj2 H)) Hrel). }
  assert (Hcoord : forall e, In e fixed ->
            In (ct_country_region e) (map country_region last)
            /\ exists row, ct_country_region row = ct_country_region e
                           /\ fix_coords last row = Ok (ct_lat e, ct_long_ e)).
  { intros e He. split.
    - apply group_keys_country_In. rewrite <- group_totals_countries.
      rewrite <- Hcountries. now apply in_map.
    - destruct (Forall2_In_r _ _ _ _ Hrel He) as (row & _ & Hc & _ & Hf).
      exists row. split; [now symmetry|exact Hf]. }
  assert (Hover : forall e c,
            In e fixed ->
            dict_lookup COUNTRY_COORDS (ct_country_region e) = Some c ->
            ct_lat e = Some (coord_lat c) /\ ct_long_ e = Some (coord_long c)).
  { intros e c He Hl. destruct (Hcoord e He) as (_ & row & Hc & Hf).
    rewrite <- Hc in Hl. rewrite (fix_coords_override _ _ _ Hl) in Hf.
    injection Hf as <- <-. now split. }
  assert (Hus : forall e,
            In e fixed -> ct_country_region e = "US" ->
            ct_lat e = Some 37.0902%Q /\ ct_long_ e = Some (-95.7129)%Q).
  { intros e He Hc.
    apply (Hover e (mkCoord 37.0902 (-95.7129)) He).
    rewrite Hc. reflexivity. }
  exists fixed.
  split; [exact Hfix|].
  split.
  { unfold map_data, country_totals.
    replace (empty last) with false
      by (destruct last; [contradiction|reflexivity]).
    simpl negb. cbv iota. now rewrite Hfix. }
  split; [rewrite Hcountries; apply group_totals_countries|].
  split; [exact Hover|].
  split; [exact Hus|].
  split.
  { intro Hin. apply group_keys_country_In in Hin.
    rewrite <- group_totals_countries, <- Hcountries in Hin.
    apply in_map_iff in Hin. destruct Hin as (e & Hc & He).
    exists e. split; [|exact Hc].
    apply dropna_coords_In. split; [exact He|].
    destruct (Hus e He Hc) as (-> & ->). split; discriminate. }
  split.
  { intros e He Hl. destruct (Hcoord e He) as (Hin & row & Hc & Hf).
    rewrite <- Hc in Hl, Hin.
    destruct (fix_coords_fallback last row Hl Hin)
      as (best & Hb & Hbc & Hmax & Hv).
    rewrite Hv in Hf. injection Hf as Hla Hlo.
    exists best. rewrite <- Hc. repeat split; try assumption; now symmetry. }
  split; [intro e; apply dropna_coords_In|].
  split.
  { rewrite group_max_active_countries, Hcountries.
    symmetry. apply group_totals_countries. }
  rewrite kpi_confirmed_sum, Hconfirmed. symmetry. apply group_totals_sum.
Qed.

Lemma coordinates_prefer_overrides_witness :
  df_last_day with_us day_1 <> []
  /\ map (fun r => (country_region r, lat r, long_ r))
         (df_last_day with_us day_1)
     = [ ("US", Some 1%Q, Some 2%Q); ("Chile", Some 3%Q, Some 4%Q);
         ("Chile", Some (-33)%Q, Some (-70)%Q); ("Atlantis", None, None) ]
  /\ exists fixed,
       map_data (df_last_day with_us day_1) = Ok (dropna_coords fixed)
       /\ dropna_coords fixed
          = [ mkCountryTotal "Chile" 16 (Some (-33)%Q) (Some (-70)%Q);
              mkCountryTotal "US" 30 (Some 37.0902%Q) (Some (-95.7129)%Q) ].
Proof.
  assert (H : df_last_day with_us day_1 <> []) by (vm_compute; discriminate).
  split; [exact H|]. split; [reflexivity|].
  destruct (coordinates_prefer_overrides with_us day_1 H)
    as (fixed & _ & Hmap & _).
  exists fixed. split; [exact Hmap|].
  change (map_data (df_last_day with_us day_1))
    with (Ok [ mkCountryTotal "Chile" 16 (Some (-33)%Q) (Some (-70)%Q);
               mkCountryTotal "US" 30 (Some 37.0902%Q) (Some (-95.7129)%Q) ])
    in Hmap.
  injection Hmap as Hmap. symmetry. exact Hmap.
Defined.

(** ** The page when the end-date subset has rows *)

Lemma map_data_ok (t : DataFrame) :
  t <> [] -> exists fixed, map_data t = Ok (dropna_coords fixed).
Proof.
  intro H. destruct (apply_fix_coords_spec t (group_totals t))
    as (fixed & Hfix & _).
  exists fixed. unfold map_data, country_totals.
  destruct t; [contradiction|]. simpl negb. cbv iota. now rewrite Hfix.
Qed.

Lemma conclusions_total (tl : list TimelineRow) :
  exists c, conclusions tl = Ok c.
Proof.
  destruct (Nat.le_gt_cases (List.length tl) 1) as [H|H].
  - exists InsufficientData. now apply conclusions_insufficient.
  - destruct (conclusions_growth tl (mkTimelineRow 0 0 0 0 0))
      as (g & reb & _ & _ & Hc); [lia|].
    eexists. exact Hc.
Qed.

Lemma st_show_completes (e : Element) : completes (st_show e).
Proof. intro page. reflexivity. Qed.

Lemma seq_completes (c k : Script unit) :
  completes c -> completes k -> completes (c >> k).
Proof.
  intros Hc Hk page. unfold seq_bind.
  specialize (Hc page). destruct (c page) as [page' r]. simpl in Hc.
  rewrite Hc. apply Hk.
Qed.

Lemma eval_completes {A : Type} (a : A) (k : A -> Script unit) :
  completes (k a) -> completes (do x <- eval (Ok a); k x).
Proof. intros Hk page. apply Hk. Qed.

Lemma show_conclusion_completes (c : Conclusion) :
  completes (show_conclusion c).
Proof.
  destruct c as [g s e [v r|]|]; simpl;
    repeat first [apply seq_completes | apply st_show_completes].
Qed.

(** The script runs to its end exactly when the end-date subset has rows. *)
Lemma run_completes (df : DataFrame) (sel : Selection) :
  snd (run df sel) = Ok tt <-> df_last_day df sel <> [].
Proof.
  split.
  - intros H E. rewrite (run_empty_last_day df sel E) in H. discriminate.
  - intro H.
    destruct (map_data_ok _ H) as (fixed & Hm).
    destruct (conclusions_total (timeline (df_filtered df sel))) as (c & Hc).
    unfold run, app. rewrite fatality_rate_value, Hm, Hc.
    generalize (@nil Element). fold (completes).
    apply eval_completes.
    repeat (apply seq_completes; [apply st_show_completes|]).
    apply seq_completes;
      [destruct (negb (empty (timeline (df_filtered df sel))));
       apply st_show_completes|].
    apply eval_completes.
    apply seq_completes;
      [destruct (negb (empty (dropna_coords fixed)));
       apply st_show_completes|].
    apply eval_completes.
    apply seq_completes; [apply show_conclusion_completes|].
    destruct (negb (empty (df_last_day df sel)));
      [destruct (negb (empty (top_active (df_last_day df sel))))|];
      apply st_show_completes.
Qed.

(** * Further properties *)

(** ** Loader and classification *)

Lemma dict_lookup_In {V : Type} (d : dict V) (k : string) (v : V) :
  dict_lookup d k = Some v -> In (k, v) d.
Proof.
  induction d as [|[k' v'] d IH]; simpl; [discriminate|].
  destruct (String.eqb_spec k k') as [->|_].
  - intro E. injection E as ->. now left.
  - intro E. right. now apply IH.
Qed.

Lemma corrections_values_fixed :
  Forall (fun kv => dict_get corrections (snd kv) (snd kv) = snd kv)
         corrections.
Proof. repeat constructor. Qed.

Lemma corrections_idempotent (name : string) :
  dict_get corrections (dict_get corrections name name)
           (dict_get corrections name name)
  = dict_get corrections name name.
Proof.
  unfold dict_get at 2 3 4.
  destruct (dict_lookup corrections name) as [v|] eqn:E.
  - apply dict_lookup_In in E.
    assert (H := corrections_values_fixed). rewrite Forall_forall in H.
    exact (H _ E).
  - unfold dict_get. now rewrite E.
Qed.

(** X1. [load_data] keeps the rows of the file in number and order with
    their counts, dates and coordinates; the [Continent] it adds to a row
    is the classification of that row's country, one of the seven labels,
    although a country is classified once only; an [active] column present
    in the file is kept as supplied, an absent one is computed as
    confirmed - deaths - recovered. *)
Theorem load_data_columns
  (name_to_alpha2 alpha2_to_code : string -> result string) (t : CsvTable) :
  exists df,
    load_data name_to_alpha2 alpha2_to_code (Some t) = Ok df
    /\ map country_region df = map csv_country_region (csv_rows t)
    /\ map file_date df = map csv_file_date (csv_rows t)
    /\ map confirmed df = map csv_confirmed (csv_rows t)
    /\ map deaths df = map csv_deaths (csv_rows t)
    /\ map recovered df = map csv_recovered (csv_rows t)
    /\ map lat df = map csv_lat (csv_rows t)
    /\ map long_ df = map csv_long_ (csv_rows t)
    /\ map active df
       = map (fun r => if has_active t then csv_active r
                       else csv_confirmed r - csv_deaths r - csv_recovered r)
             (csv_rows t)
    /\ Forall (fun r =>
                 Continent r
                 = get_continent name_to_alpha2 alpha2_to_code
                                 (country_region r)
                 /\ In (Continent r) continent_labels)
              df.
Proof.
  destruct (load_data_rows name_to_alpha2 alpha2_to_code t)
    as (df & Hdf & _ & Hc & _).
  exists df. split; [exact Hdf|].
  injection Hdf as <-.
  repeat (split; [rewrite map_map; reflexivity|]).
  rewrite Forall_forall in *. intros r Hr. split; [now apply Hc|].
  rewrite (Hc r Hr).
  destruct (get_continent_body name_to_alpha2 alpha2_to_code
              (country_region r)) as [v|e] eqn:E;
    unfold get_continent; rewrite E; simpl.
  - unfold get_continent_body in E.
    destruct (name_to_alpha2 _) as [a|]; [|discriminate].
    simpl in E. destruct (alpha2_to_code a) as [c|]; [|discriminate].
    simpl in E. injection E as <-. apply dict_get_continents.
  - unfold continent_labels. simpl. tauto.
Qed.

(** X2. The name corrections are applied once for all: correcting an
    already corrected name changes nothing, so a name and its corrected
    form always classify alike, whatever the resolvers answer. *)
Theorem get_continent_corrected
  (name_to_alpha2 alpha2_to_code : string -> result string)
  (country_name : string) :
  get_continent name_to_alpha2 alpha2_to_code
                (dict_get corrections country_name country_name)
  = get_continent name_to_alpha2 alpha2_to_code country_name.
Proof.
  unfold get_continent, get_continent_body.
  now rewrite corrections_idempotent.
Qed.

(** ** Filters and the options of the sidebar *)

Lemma truthy_true {A : Type} (l : list A) : truthy l = true <-> l <> [].
Proof. destruct l; simpl; split; congruence. Qed.

Lemma row_selected_true (sel : Selection) (r : Row) :
  row_selected sel r = true
  <-> (start_date sel <= dt_date (file_date r) <= end_date sel)
      /\ (selected_continents sel = []
          \/ In (Continent r) (selected_continents sel))
      /\ (selected_countries sel = []
          \/ In (country_region r) (selected_countries sel)).
Proof.
  unfold row_selected, mask_date.
  rewrite !andb_true_iff, !Z.leb_le.
  destruct (selected_continents sel) as [|c cs];
    destruct (selected_countries sel) as [|k ks]; simpl truthy; cbv iota;
    rewrite ?string_in_In; intuition congruence.
Qed.

(** X3. A selection that refines another one (a date range inside the
    first, and on each axis either the first selection is empty or the
    second is a non-empty part of it) gives, applied to the table the first
    selection kept, the table it gives applied to the whole. *)
Theorem df_filtered_refine (df : DataFrame) (s1 s2 : Selection)
  (Hstart : start_date s1 <= start_date s2)
  (Hend : end_date s2 <= end_date s1)
  (Hcontinents : selected_continents s1 = []
                 \/ (selected_continents s2 <> []
                     /\ incl (selected_continents s2)
                             (selected_continents s1)))
  (Hcountries : selected_countries s1 = []
                \/ (selected_countries s2 <> []
                    /\ incl (selected_countries s2) (selected_countries s1))) :
  df_filtered (df_filtered df s1) s2 = df_filtered df s2.
Proof.
  rewrite !df_filtered_row_selected, filter_filter.
  apply filter_ext. intro r.
  destruct (row_selected s2 r) eqn:E2; [|apply andb_false_r].
  rewrite andb_true_r. apply row_selected_true.
  apply row_selected_true in E2. destruct E2 as (Hd & Hc & Hk).
  split; [lia|]. split.
  - destruct Hcontinents as [H|[Hne Hincl]]; [now left|].
    right. destruct Hc as [Hc|Hc]; [contradiction|now apply Hincl].
  - destruct Hcountries as [H|[Hne Hincl]]; [now left|].
    right. destruct Hk as [Hk|Hk]; [contradiction|now apply Hincl].
Qed.

Lemma df_filtered_refine_witness :
  df_filtered (df_filtered two_continents
                 (mkSelection ["South America"] [] 1 2))
              (mkSelection ["South America"] ["Chile"] 2 2)
  = df_filtered two_continents (mkSelection ["South America"] ["Chile"] 2 2)
  /\ map country_region
         (df_filtered two_continents
            (mkSelection ["South America"] ["Chile"] 2 2))
     = ["Chile"].
Proof.
  split; [|reflexivity].
  apply df_filtered_refine; simpl.
  - lia.
  - lia.
  - right. split; [discriminate|]. intros x Hx. exact Hx.
  - now left.
Defined.

(** X4. Two selections can be applied in either order. *)
Theorem df_filtered_commute (df : DataFrame) (s1 s2 : Selection) :
  df_filtered (df_filtered df s1) s2 = df_filtered (df_filtered df s2) s1.
Proof.
  rewrite !df_filtered_row_selected, !filter_filter.
  apply filter_ext. intro r. apply andb_comm.
Qed.

Lemma unique_from_NoDup (seen l : list string) : NoDup (unique_from seen l).
Proof.
  revert seen; induction l as [|x l IH]; intro seen; simpl; [constructor|].
  destruct (string_in x seen); [apply IH|].
  constructor; [|apply IH].
  rewrite unique_from_In. intros [_ H]. apply H. now left.
Qed.

Lemma sorted_In (x : string) (l : list string) : In x (sorted l) <-> In x l.
Proof. apply sort_by_In. Qed.

Lemma sorted_NoDup (l : list string) : NoDup l -> NoDup (sorted l).
Proof.
  apply Permutation_NoDup. symmetry. apply sort_by_perm.
Qed.

Lemma country_options_In (df : DataFrame) (selected_continents : list string)
  (c : string) :
  In c (country_options df selected_continents)
  <-> exists r,
        In r df /\ country_region r = c
        /\ (selected_continents = []
            \/ In (Continent r) selected_continents).
Proof.
  unfold country_options, filtered_countries. rewrite sorted_In.
  destruct selected_continents as [|k ks]; simpl truthy; cbv iota;
    rewrite unique_In, in_map_iff.
  - split.
    + intros (r & Hc & Hr). exists r. tauto.
    + intros (r & Hr & Hc & _). exists r. tauto.
  - split.
    + intros (r & Hc & Hr). apply filter_In in Hr.
      destruct Hr as [Hr Hin]. apply string_in_In in Hin.
      exists r. tauto.
    + intros (r & Hr & Hc & [H|H]); [discriminate|].
      exists r. split; [exact Hc|].
      apply filter_In. split; [exact Hr|now apply string_in_In].
Qed.

(** X5. The country options hold no duplicate, and a country is offered
    exactly when some row of the table has it and, if continents are
    selected, belongs to one of them. *)
Theorem country_options_spec (df : DataFrame)
  (selected_continents : list string) :
  NoDup (country_options df selected_continents)
  /\ forall c,
       In c (country_options df selected_continents)
       <-> exists r,
             In r df /\ country_region r = c
             /\ (selected_continents = []
                 \/ In (Continent r) selected_continents).
Proof.
  split; [|intro c; apply country_options_In].
  unfold country_options, filtered_countries. apply sorted_NoDup.
  destruct (truthy selected_continents); apply unique_from_NoDup.
Qed.

(** X6. On a table whose [Continent] depends on the country only, as
    [load_data] builds it, choosing countries among the options offered
    makes the continent selection redundant: the filtered table is the one
    the countries and the date range alone give. *)
Theorem continent_filter_redundant (df : DataFrame) (sel : Selection)
  (Hcontinent : forall r r',
      In r df -> In r' df -> country_region r = country_region r' ->
      Continent r = Continent r')
  (Hchosen : selected_countries sel <> [])
  (Hoffered : incl (selected_countries sel)
                   (country_options df (selected_continents sel))) :
  df_filtered df sel
  = df_filtered df (mkSelection [] (selected_countries sel)
                                (start_date sel) (end_date sel)).
Proof.
  rewrite !df_filtered_row_selected. apply filter_ext_in. intros r Hr.
  destruct (row_selected sel r) eqn:E1;
    destruct (row_selected (mkSelection [] (selected_countries sel)
                              (start_date sel) (end_date sel)) r) eqn:E2;
    try reflexivity; exfalso.
  - apply row_selected_true in E1.
    assert (H : row_selected (mkSelection [] (selected_countries sel)
                                (start_date sel) (end_date sel)) r = true).
    { apply row_selected_true. simpl. tauto. }
    congruence.
  - apply row_selected_true in E2. simpl in E2.
    destruct E2 as (Hd & _ & [Hk|Hk]); [contradiction|].
    assert (H : row_selected sel r = true).
    { apply row_selected_true. split; [exact Hd|]. split; [|now right].
      apply Hoffered in Hk.
      apply country_options_In in Hk.
      destruct Hk as (r' & Hr' & Hc & [H|H]); [now left|].
      right. now rewrite (Hcontinent r r' Hr Hr' (eq_sym Hc)). }
    congruence.
Qed.

Lemma continent_filter_redundant_witness :
  incl ["Chile"] (country_options two_continents ["South America"])
  /\ df_filtered two_continents (mkSelection ["South America"] ["Chile"] 1 2)
     = df_filtered two_continents (mkSelection [] ["Chile"] 1 2).
Proof.
  assert (Hoffered : incl ["Chile"]
                          (country_options two_continents ["South America"])).
  { intros c [<-|[]]. vm_compute. tauto. }
  split; [exact Hoffered|].
  apply (continent_filter_redundant two_continents
           (mkSelection ["South America"] ["Chile"] 1 2)).
  - intros r r' Hr Hr'. simpl in Hr, Hr'.
    repeat (destruct Hr as [<-|Hr]; [|]); try contradiction;
      repeat (destruct Hr' as [<-|Hr']; [|]); try contradiction;
      simpl; intro E; try reflexivity; discriminate E.
  - discriminate.
  - exact Hoffered.
Defined.

(** ** The page as first shown *)

Lemma fold_left_min_spec (l : list Z) (x : Z) :
  (fold_left Z.min l x = x \/ In (fold_left Z.min l x) l)
  /\ fold_left Z.min l x <= x
  /\ forall y, In y l -> fold_left Z.min l x <= y.
Proof.
  revert x; induction l as [|a l IH]; intro x; simpl.
  - split; [now left|]. split; [lia|]. intros y [].
  - destruct (IH (Z.min x a)) as (Hin & Hle & Hall).
    split; [|split].
    + destruct Hin as [E|Hin]; [|right; now right].
      rewrite E. destruct (Z.min_spec x a) as [[_ ->]|[_ ->]];
        [now left|right; now left].
    + lia.
    + intros y [<-|Hy]; [lia|now apply Hall].
Qed.

Lemma series_min_spec (l : list Z) (m : Z) :
  series_min l = Some m -> In m l /\ forall y, In y l -> m <= y.
Proof.
  destruct l as [|x l]; [discriminate|]. simpl. intro E. injection E as <-.
  destruct (fold_left_min_spec l x) as (Hin & Hle & Hall). split.
  - destruct Hin as [->|Hin]; [now left|now right].
  - intros y [<-|Hy]; [exact Hle|now apply Hall].
Qed.

Lemma series_max_spec (l : list Z) (m : Z) :
  series_max l = Some m -> In m l /\ forall y, In y l -> y <= m.
Proof.
  destruct l as [|x l]; [discriminate|]. simpl. intro E. injection E as <-.
  destruct (fold_left_max_spec l x) as (Hin & Hle & Hall). split.
  - destruct Hin as [->|Hin]; [now left|now right].
  - intros y [<-|Hy]; [exact Hle|now apply Hall].
Qed.

Lemma dt_date_mono (a b : Z) : a <= b -> dt_date a <= dt_date b.
Proof.
  intro H. unfold dt_date. apply Z.div_le_mono; [reflexivity|exact H].
Qed.

Lemma filter_all {A : Type} (f : A -> bool) (l : list A) :
  (forall x, In x l -> f x = true) -> filter f l = l.
Proof.
  induction l as [|x l IH]; simpl; intro H; [reflexivity|].
  rewrite (H x) by now left. f_equal. apply IH. intros y Hy. apply H.
  now right.
Qed.

(** X7. On a table with at least one row, the widgets as first shown
    (nothing selected, the range from the earliest to the latest date)
    keep the whole table, the latest date has rows, and the script runs to
    its end. *)
Theorem default_selection_keeps_all (df : DataFrame) (Hrows : df <> []) :
  exists sel,
    default_selection df = Some sel
    /\ selected_continents sel = []
    /\ selected_countries sel = []
    /\ (forall r, In r df ->
                  start_date sel <= dt_date (file_date r) <= end_date sel)
    /\ df_filtered df sel = df
    /\ df_last_day df sel <> []
    /\ snd (run df sel) = Ok tt.
Proof.
  destruct (series_min (map file_date df)) as [m|] eqn:Em;
    [|destruct df; [contradiction|discriminate]].
  destruct (series_max (map file_date df)) as [M|] eqn:EM;
    [|destruct df; [contradiction|discriminate]].
  destruct (series_min_spec _ _ Em) as (_ & Hmin).
  destruct (series_max_spec _ _ EM) as (HM & Hmax).
  exists (mkSelection [] [] (dt_date m) (dt_date M)).
  assert (Hrange : forall r, In r df ->
            dt_date m <= dt_date (file_date r) <= dt_date M).
  { intros r Hr. split; apply dt_date_mono;
      [apply Hmin|apply Hmax]; now apply in_map. }
  assert (Hall : df_filtered df (mkSelection [] [] (dt_date m) (dt_date M))
                 = df).
  { rewrite df_filtered_row_selected. apply filter_all. intros r Hr.
    apply row_selected_true. simpl. split; [now apply Hrange|].
    split; now left. }
  assert (Hlast : df_last_day df (mkSelection [] [] (dt_date m) (dt_date M))
                  <> []).
  { apply in_map_iff in HM. destruct HM as (r & Hd & Hr).
    intro E.
    assert (Hin : In r (df_last_day df
                          (mkSelection [] [] (dt_date m) (dt_date M)))).
    { apply df_last_day_In. rewrite Hall. split; [exact Hr|].
      simpl. now rewrite Hd. }
    rewrite E in Hin. exact Hin. }
  split; [unfold default_selection, min_date, max_date;
          now rewrite Em, EM|].
  split; [reflexivity|]. split; [reflexivity|].
  split; [exact Hrange|]. split; [exact Hall|]. split; [exact Hlast|].
  now apply run_completes.
Qed.

Lemma default_selection_keeps_all_witness :
  two_continents <> []
  /\ default_selection two_continents = Some (mkSelection [] [] 1 2)
  /\ df_filtered two_continents (mkSelection [] [] 1 2) = two_continents.
Proof.
  assert (H : two_continents <> []) by discriminate.
  split; [exact H|].
  destruct (default_selection_keeps_all two_continents H)
    as (sel & Hsel & _ & _ & _ & Hall & _).
  change (default_selection two_continents)
    with (Some (mkSelection [] [] 1 2)) in Hsel.
  injection Hsel as <-. split; [reflexivity|exact Hall].
Defined.

(** ** Timeline *)

Section GroupSums.

Variable col : Row -> Z.

Lemma Zsum_date_indicator (k v : Z) (keys : list Z) :
  NoDup keys ->
  Zsum (map (fun d => if k =? d then v else 0) keys)
  = if in_dec Z.eq_dec k keys then v else 0.
Proof.
  intro Hnd. induction Hnd as [|d ks Hnotin Hnd IH]; simpl; [reflexivity|].
  rewrite IH. destruct (Z.eqb_spec k d) as [E|Hne].
  - destruct (Z.eq_dec d k) as [Hdk|Hdk]; [|congruence].
    destruct (in_dec Z.eq_dec k ks) as [Hin|Hin]; [|lia].
    rewrite E in Hin. contradiction.
  - destruct (Z.eq_dec d k) as [Hdk|Hdk]; [congruence|].
    destruct (in_dec Z.eq_dec k ks); lia.
Qed.

Lemma Zsum_by_date (keys : list Z) (t : DataFrame) :
  NoDup keys ->
  (forall r, In r t -> In (file_date r) keys) ->
  Zsum (map (fun d => Zsum (map col (rows_of_date d t))) keys)
  = Zsum (map col t).
Proof.
  intros Hnd. induction t as [|r t IH]; intro Hkeys.
  - simpl. clear Hnd Hkeys. induction keys; simpl; [reflexivity|].
    now rewrite IHkeys.
  - rewrite (map_ext _
               (fun d => (if file_date r =? d then col r else 0)
                         + Zsum (map col (rows_of_date d t)))).
    + rewrite Zsum_map_add, IH, (Zsum_date_indicator _ _ _ Hnd).
      * destruct (in_dec Z.eq_dec (file_date r) keys) as [_|Hn];
          [reflexivity|].
        exfalso. apply Hn, Hkeys. now left.
      * intros r' Hr'. apply Hkeys. now right.
    + intro d. unfold rows_of_date. simpl.
      destruct (file_date r =? d); reflexivity.
Qed.

Lemma timeline_column_total (t : DataFrame) :
  Zsum (map (fun d => Zsum (map col (rows_of_date d t)))
            (group_keys_date (map file_date t)))
  = Zsum (map col t).
Proof.
  apply Zsum_by_date.
  - apply group_keys_date_NoDup.
  - intros r Hr. apply group_keys_date_In. now apply in_map.
Qed.

End GroupSums.

(** X8. The timeline has one row per distinct [file_date] of the table,
    in strictly ascending order; a row holds the sums of the four counts
    over the table rows of that date; and nothing is lost or counted
    twice: each column of the timeline adds up to the column of the table. *)
Theorem timeline_partitions_table (t : DataFrame) :
  StronglySorted (fun a b => tl_file_date a < tl_file_date b) (timeline t)
  /\ (forall d, In d (map tl_file_date (timeline t))
                <-> In d (map file_date t))
  /\ (forall row,
         In row (timeline t) ->
         let g := rows_of_date (tl_file_date row) t in
         g <> []
         /\ tl_confirmed row = Zsum (map confirmed g)
         /\ tl_deaths row = Zsum (map deaths g)
         /\ tl_recovered row = Zsum (map recovered g)
         /\ tl_active row = Zsum (map active g))
  /\ Zsum (map tl_confirmed (timeline t)) = Zsum (map confirmed t)
  /\ Zsum (map tl_deaths (timeline t)) = Zsum (map deaths t)
  /\ Zsum (map tl_recovered (timeline t)) = Zsum (map recovered t)
  /\ Zsum (map tl_active (timeline t)) = Zsum (map active t).
Proof.
  split; [apply timeline_sorted|].
  split; [intro d; rewrite timeline_dates; apply group_keys_date_In|].
  split.
  { intros row Hrow g. destruct (timeline_row t row Hrow) as (Hd & Hsums).
    split; [|exact Hsums].
    apply in_map_iff in Hd. destruct Hd as (r & Hr & Hin).
    intro E. assert (Hg : In r g) by (apply rows_of_date_In; now split).
    rewrite E in Hg. exact Hg. }
  unfold timeline. rewrite !map_map. simpl.
  repeat split; apply timeline_column_total.
Qed.

Lemma timeline_partitions_table_witness :
  map tl_file_date (timeline two_continents) = [day 1; day 2]
  /\ map tl_confirmed (timeline two_continents) = [21; 8]
  /\ Zsum (map tl_confirmed (timeline two_continents))
     = Zsum (map confirmed two_continents).
Proof.
  split; [reflexivity|]. split; [reflexivity|].
  apply (timeline_partitions_table two_continents).
Defined.

(** ** The KPIs and the last point of the timeline *)

Lemma sorted_last (l : list Z) (m : Z) :
  StronglySorted Z.lt l -> In m l -> (forall x, In x l -> x <= m) ->
  exists l', l = (l' ++ [m])%list.
Proof.
  intros Hs Hm Hmax.
  destruct (@exists_last _ l) as (l' & a & E).
  { intro E. rewrite E in Hm. exact Hm. }
  exists l'. rewrite E. f_equal. f_equal.
  assert (Ha : a <= m) by (apply Hmax; rewrite E; apply in_or_app; right;
                           now left).
  rewrite E in Hm. apply in_app_or in Hm. destruct Hm as [Hm|[Hm|[]]].
  - rewrite E in Hs.
    assert (H := StronglySorted_app Z.lt l' [a] Hs m a Hm
                   (or_introl eq_refl)).
    lia.
  - exact Hm.
Qed.

Lemma at_midnight_date (r : Row) (d : Z) :
  at_midnight r -> (file_date r = d * ns_per_day <-> dt_date (file_date r) = d).
Proof.
  unfold at_midnight. intro H. split; intro E.
  - rewrite E. unfold dt_date. apply Z.div_mul. discriminate.
  - rewrite H at 1. now rewrite E.
Qed.

(** X9. When the file holds dates without a time of day and the end date
    has rows, the last row of the timeline is the end date, and its
    [confirmed] and [deaths], the final values the conclusions use, are the
    two KPI totals. *)
Theorem kpi_is_last_timeline_point (df : DataFrame) (sel : Selection)
  (Hmidnight : Forall at_midnight df)
  (Hrows : df_last_day df sel <> []) :
  exists last,
    iloc (timeline (df_filtered df sel)) (-1) = Ok last
    /\ tl_file_date last = end_date sel * ns_per_day
    /\ tl_confirmed last = kpi_confirmed (df_last_day df sel)
    /\ tl_deaths last = kpi_deaths (df_last_day df sel).
Proof.
  set (F := df_filtered df sel) in *.
  set (kmax := end_date sel * ns_per_day).
  assert (HF : forall r, In r F ->
             at_midnight r /\ dt_date (file_date r) <= end_date sel).
  { intros r Hr. apply df_filtered_In in Hr. destruct Hr as [Hr Hs].
    rewrite Forall_forall in Hmidnight. split; [now apply Hmidnight|].
    apply row_selected_true in Hs. lia. }
  assert (Hgroup : rows_of_date kmax F = df_last_day df sel).
  { unfold rows_of_date, df_last_day. fold F. apply filter_ext_in.
    intros r Hr. destruct (HF r Hr) as [Hm _].
    destruct (Z.eqb_spec (file_date r) kmax) as [E|E];
      destruct (Z.eqb_spec (dt_date (file_date r)) (end_date sel)) as [E'|E'];
      try reflexivity; exfalso.
    - apply E'. now apply (at_midnight_date r _ Hm).
    - apply E. now apply (at_midnight_date r _ Hm). }
  assert (Hin : In kmax (group_keys_date (map file_date F))).
  { apply group_keys_date_In.
    destruct (df_last_day df sel) as [|r rest] eqn:E; [contradiction|].
    assert (Hr : In r (rows_of_date kmax F))
      by (rewrite Hgroup; now left).
    apply rows_of_date_In in Hr. destruct Hr as [Hr <-]. now apply in_map. }
  assert (Hmax : forall d, In d (group_keys_date (map file_date F)) ->
                           d <= kmax).
  { intros d Hd. rewrite group_keys_date_In in Hd. apply in_map_iff in Hd.
    destruct Hd as (r & <- & Hr). destruct (HF r Hr) as [Hm Hle].
    unfold at_midnight in Hm. rewrite Hm. unfold kmax.
    apply Z.mul_le_mono_nonneg_r; [discriminate|exact Hle]. }
  destruct (sorted_last _ _ (group_keys_date_sorted _) Hin Hmax)
    as (keys & Ekeys).
  pose (d := mkTimelineRow 0 0 0 0 0).
  exists (nth (List.length (timeline F) - 1) (timeline F) d).
  change (-1) with (- Z.of_nat 1).
  assert (Hlen : List.length (timeline F) = S (List.length keys)).
  { rewrite <- (length_map tl_file_date), timeline_dates, Ekeys,
      length_app. simpl. lia. }
  split; [apply iloc_from_end; lia|].
  assert (Hnth : nth (List.length (timeline F) - 1) (timeline F) d
          = mkTimelineRow kmax
              (Zsum (map confirmed (rows_of_date kmax F)))
              (Zsum (map deaths (rows_of_date kmax F)))
              (Zsum (map recovered (rows_of_date kmax F)))
              (Zsum (map active (rows_of_date kmax F)))).
  { rewrite Hlen. unfold timeline. rewrite Ekeys, map_app.
    rewrite app_nth2; rewrite length_map; [|lia].
    replace (S (List.length keys) - 1 - List.length keys)%nat with 0%nat
      by lia.
    reflexivity. }
  rewrite Hnth. simpl. rewrite Hgroup, kpi_confirmed_sum, kpi_deaths_sum.
  repeat split.
Qed.

Lemma kpi_is_last_timeline_point_witness :
  Forall at_midnight two_continents
  /\ df_last_day two_continents (mkSelection [] [] 1 2) <> []
  /\ kpi_confirmed (df_last_day two_continents (mkSelection [] [] 1 2)) = 8
  /\ exists last,
       iloc (timeline (df_filtered two_continents (mkSelection [] [] 1 2)))
            (-1) = Ok last
       /\ tl_confirmed last = 8.
Proof.
  assert (Hm : Forall at_midnight two_continents)
    by (repeat constructor).
  assert (Hr : df_last_day two_continents (mkSelection [] [] 1 2) <> [])
    by (vm_compute; discriminate).
  split; [exact Hm|]. split; [exact Hr|]. split; [reflexivity|].
  destruct (kpi_is_last_timeline_point two_continents
              (mkSelection [] [] 1 2) Hm Hr) as (last & Hl & _ & Hc & _).
  exists last. split; [exact Hl|]. rewrite Hc. reflexivity.
Defined.

(** ** Map *)

(** X10. The coordinates [fix_coords] gives to a row of the per-country
    table depend on the row's country only: the coordinates the grouping
    took from the first rows of the country, kept for the case of a failing
    lookup, are never used for a country that has rows on the end date. *)
Theorem fix_coords_ignores_first (t : DataFrame) (row row' : CountryTotal)
  (Hcountry : ct_country_region row' = ct_country_region row)
  (Hrows : In (ct_country_region row) (map country_region t)) :
  fix_coords t row' = fix_coords t row.
Proof.
  unfold fix_coords. rewrite Hcountry.
  destruct (dict_mem COUNTRY_COORDS (ct_country_region row)); [reflexivity|].
  apply in_map_iff in Hrows. destruct Hrows as (r0 & Hc & Hr0).
  assert (Hr : In r0 (sort_confirmed_desc
                        (rows_of_country (ct_country_region row) t))).
  { apply sort_by_In, rows_of_country_In. now split. }
  destruct (sort_confirmed_desc (rows_of_country (ct_country_region row) t))
    as [|best rest]; [contradiction|].
  change 0 with (Z.of_nat 0).
  rewrite (iloc_nth (best :: rest) 0 best) by (simpl; lia).
  reflexivity.
Qed.

Lemma fix_coords_ignores_first_witness :
  fix_coords with_us (mkCountryTotal "Chile" 16 (Some 3%Q) (Some 4%Q))
  = fix_coords with_us (mkCountryTotal "Chile" 16 None None)
  /\ fix_coords with_us (mkCountryTotal "Chile" 16 None None)
     = Ok (Some (-33)%Q, Some (-70)%Q).
Proof.
  split; [|reflexivity].
  apply fix_coords_ignores_first; [reflexivity|].
  simpl. tauto.
Defined.

Lemma dropna_coords_NoDup (rows : list CountryTotal) :
  NoDup (map ct_country_region rows) ->
  NoDup (map ct_country_region (dropna_coords rows)).
Proof.
  unfold dropna_coords.
  induction rows as [|x rows IH]; simpl; intro H; [constructor|].
  inversion H as [|? ? Hnotin Hnd]; subst.
  destruct (notna (ct_lat x) && notna (ct_long_ x)); [|now apply IH].
  simpl. constructor; [|now apply IH].
  intro Hin. apply Hnotin. apply in_map_iff in Hin.
  destruct Hin as (y & Hy & Hyin). apply filter_In in Hyin.
  rewrite <- Hy. apply in_map. tauto.
Qed.

(** X11. When the end-date subset has rows the map table is produced
    without error; it holds at most one row per country, every row has both
    coordinates, belongs to a country of the subset, and its [confirmed] is
    the sum over that country's rows on the end date. *)
Theorem map_data_rows (t : DataFrame) (Hrows : t <> []) :
  exists md,
    map_data t = Ok md
    /\ NoDup (map ct_country_region md)
    /\ forall e,
         In e md ->
         In (ct_country_region e) (map country_region t)
         /\ ct_confirmed e
            = Zsum (map confirmed (rows_of_country (ct_country_region e) t))
         /\ (exists la lo, ct_lat e = Some la /\ ct_long_ e = Some lo).
Proof.
  destruct (apply_fix_coords_spec t (group_totals t)) as (fixed & Hfix & Hrel).
  assert (Hcountries : map ct_country_region fixed
                       = map ct_country_region (group_totals t)).
  { apply (Forall2_map_eq _ _ _ _ _ (fun a b H => proj1 H) Hrel). }
  exists (dropna_coords fixed). split; [|split].
  - unfold map_data, country_totals.
    destruct t; [contradiction|]. simpl negb. cbv iota. now rewrite Hfix.
  - apply dropna_coords_NoDup.
    rewrite Hcountries, group_totals_countries.
    apply group_keys_country_NoDup.
  - intros e He. apply dropna_coords_In in He.
    destruct He as (He & Hla & Hlo).
    destruct (Forall2_In_r _ _ _ _ Hrel He) as (row & Hrow & Hc & Hcf & _).
    unfold group_totals in Hrow. apply in_map_iff in Hrow.
    destruct Hrow as (c & <- & Hkey). simpl in Hc, Hcf.
    rewrite Hc, Hcf. rewrite group_keys_country_In in Hkey.
    split; [exact Hkey|].
    split; [reflexivity|].
    destruct (ct_lat e) as [la|]; [|congruence].
    destruct (ct_long_ e) as [lo|]; [|congruence].
    now exists la, lo.
Qed.

Lemma map_data_rows_witness :
  with_us <> []
  /\ map_data with_us
     = Ok [ mkCountryTotal "Chile" 16 (Some (-33)%Q) (Some (-70)%Q);
            mkCountryTotal "US" 30 (Some 37.0902%Q) (Some (-95.7129)%Q) ]
  /\ exists md, map_data with_us = Ok md /\ NoDup (map ct_country_region md).
Proof.
  assert (H : with_us <> []) by discriminate.
  split; [exact H|]. split; [reflexivity|].
  destruct (map_data_rows with_us H) as (md & Hm & Hn & _).
  now exists md.
Defined.

(** ** The page *)

(** X12. A run of the script either reaches its end or stops on the
    [NameError] of the map step, and it stops exactly when the end-date
    subset is empty: no selection makes it fail on a division by zero, a
    position out of range or a missing key. *)
Theorem run_stops_only_on_empty_last_day (df : DataFrame) (sel : Selection) :
  (df_last_day df sel <> [] /\ snd (run df sel) = Ok tt)
  \/ (df_last_day df sel = []
      /\ snd (run df sel) = Raise (NameError "country_totals")).
Proof.
  destruct (df_last_day df sel) as [|r rest] eqn:E.
  - right. split; [reflexivity|]. now rewrite (run_empty_last_day df sel E).
  - left. split; [discriminate|]. apply run_completes. rewrite E.
    discriminate.
Qed.

Lemma show_conclusion_page (c : Conclusion) (page : list Element) :
  show_conclusion c page
  = ((page ++ fst (show_conclusion c []))%list, Ok tt).
Proof.
  destruct c as [g s e [v r|]|]; cbv [show_conclusion show_rebound seq_bind
                                      st_show fst]; simpl app;
    rewrite <- ?app_assoc; reflexivity.
Qed.

Lemma top_active_length (t : DataFrame) :
  List.length (top_active t)
  = Nat.min 10 (List.length (nodup string_dec (map country_region t))).
Proof.
  unfold top_active, sort_active_desc. rewrite length_firstn. f_equal.
  rewrite (Permutation_length (sort_by_perm _ (group_max_active t))).
  rewrite <- group_keys_country_length, <- group_max_active_countries.
  now rewrite length_map.
Qed.

Lemma top_active_nonempty (t : DataFrame) : t <> [] -> top_active t <> [].
Proof.
  intros H E. apply (f_equal (@List.length _)) in E.
  rewrite top_active_length in E. destruct t as [|r t]; [contradiction|].
  assert (Hin : In (country_region r)
                   (nodup string_dec (map country_region (r :: t))))
    by (apply nodup_In; now left).
  destruct (nodup string_dec (map country_region (r :: t)));
    [contradiction|]. simpl in E. lia.
Qed.

Lemma timeline_empty (t : DataFrame) : timeline t = [] <-> t = [].
Proof.
  split.
  - intro E. destruct t as [|r t]; [reflexivity|]. exfalso.
    apply (f_equal (@List.length _)) in E. rewrite timeline_length in E.
    assert (Hin : In (file_date r) (nodup Z.eq_dec (map file_date (r :: t))))
      by (apply nodup_In; now left).
    destruct (nodup Z.eq_dec (map file_date (r :: t))); [contradiction|].
    simpl in E. lia.
  - intros ->. reflexivity.
Qed.

(** The page of a run that reaches its end. *)
Lemma run_page (df : DataFrame) (sel : Selection) :
  df_last_day df sel <> [] ->
  exists md c,
    map_data (df_last_day df sel) = Ok md
    /\ conclusions (timeline (df_filtered df sel)) = Ok c
    /\ run df sel
       = (([ MetricCount "Total Confirmados"
               (kpi_confirmed (df_last_day df sel));
             MetricCount "Total Fallecidos" (kpi_deaths (df_last_day df sel));
             MetricRate "Tasa de Letalidad"
               (format_2f
                  (if 0 <? kpi_confirmed (df_last_day df sel)
                   then (inject_Z (kpi_deaths (df_last_day df sel))
                         / inject_Z (kpi_confirmed (df_last_day df sel))
                         * 100)%Q
                   else 0%Q) ++ "%");
             LineChart (timeline (df_filtered df sel));
             if negb (empty md) then ScatterGeo md else NoGeoData ]
             ++ fst (show_conclusion c [])
             ++ [ BarChart (top_active (df_last_day df sel)) ])%list,
          Ok tt).
Proof.
  intro H.
  destruct (map_data_ok _ H) as (fixed & Hm).
  destruct (conclusions_total (timeline (df_filtered df sel))) as (c & Hc).
  exists (dropna_coords fixed), c. split; [exact Hm|]. split; [exact Hc|].
  assert (Htl : negb (empty (timeline (df_filtered df sel))) = true).
  { destruct (timeline (df_filtered df sel)) eqn:E; [|reflexivity].
    apply timeline_empty in E. exfalso. apply H.
    unfold df_last_day. now rewrite E. }
  assert (Hl : negb (empty (df_last_day df sel)) = true)
    by (destruct (df_last_day df sel); [contradiction|reflexivity]).
  assert (Ht : negb (empty (top_active (df_last_day df sel))) = true).
  { assert (Hne := top_active_nonempty _ H).
    destruct (top_active (df_last_day df sel)); [contradiction|reflexivity]. }
  assert (Hs := show_conclusion_page c).
  remember (fst (show_conclusion c [])) as concl eqn:Econcl. clear Econcl.
  unfold run, app. rewrite fatality_rate_value, Hm, Hc, Htl, Hl, Ht.
  cbv [seq_bind eval st_show].
  destruct (negb (empty (dropna_coords fixed))); rewrite Hs;
    simpl app; rewrite <- app_assoc; reflexivity.
Qed.

(** X13. The placeholder of the ranking is never shown, whatever the
    selection: with rows on the end date the ranking is not empty and its
    chart closes the page, and without them the run has stopped before.
    The placeholder of the timeline is shown exactly when the filtered
    table is empty, and the run then stops right after it. *)
Theorem placeholders_shown (df : DataFrame) (sel : Selection) :
  ~ In NoRanking (fst (run df sel))
  /\ (In NoTimeline (fst (run df sel)) <-> df_filtered df sel = [])
  /\ (df_filtered df sel = [] ->
      snd (run df sel) = Raise (NameError "country_totals"))
  /\ (df_last_day df sel <> [] ->
      exists page,
        fst (run df sel)
        = (page ++ [BarChart (top_active (df_last_day df sel))])%list
        /\ top_active (df_last_day df sel) <> []).
Proof.
  assert (Hconcl : forall c e,
            In e (fst (show_conclusion c [])) ->
            e <> NoRanking /\ e <> NoTimeline).
  { intros c e. destruct c as [g s x [v r|]|]; simpl;
      intuition (subst; discriminate). }
  destruct (df_last_day df sel) as [|r0 rest] eqn:E.
  - rewrite (run_empty_last_day df sel E). simpl fst.
    split; [|split; [|split]].
    + destruct (negb (empty (timeline (df_filtered df sel)))); simpl;
        intuition discriminate.
    + rewrite <- timeline_empty.
      destruct (timeline (df_filtered df sel)) eqn:Et; simpl.
      * split; [reflexivity|tauto].
      * split; [intuition discriminate|discriminate].
    + reflexivity.
    + intro H. contradiction.
  - assert (H : df_last_day df sel <> []) by (rewrite E; discriminate).
    destruct (run_page df sel H) as (md & c & _ & _ & Hrun).
    rewrite E in Hrun. rewrite Hrun. cbn [fst].
    assert (Hf : df_filtered df sel <> []).
    { intro Ef. unfold df_last_day in E. rewrite Ef in E. discriminate. }
    split; [|split; [|split]].
    + intro Hin. simpl in Hin.
      repeat (destruct Hin as [Hin|Hin]; [try discriminate|]).
      * destruct (negb (empty md)); discriminate.
      * apply in_app_or in Hin. destruct Hin as [Hin|[Hin|[]]];
          [|discriminate].
        now destruct (Hconcl c NoRanking Hin).
    + split; [|intro Ef; contradiction].
      intro Hin. exfalso. simpl in Hin.
      repeat (destruct Hin as [Hin|Hin]; [try discriminate|]).
      * destruct (negb (empty md)); discriminate.
      * apply in_app_or in Hin. destruct Hin as [Hin|[Hin|[]]];
          [|discriminate].
        now destruct (Hconcl c NoTimeline Hin).
    + intro Ef. contradiction.
    + intros _. eexists. split.
      * rewrite app_assoc. reflexivity.
      * rewrite <- E. now apply top_active_nonempty.
Qed.

Lemma placeholders_shown_witness :
  df_filtered two_days only_A_on_day_2 = []
  /\ In NoTimeline (fst (run two_days only_A_on_day_2))
  /\ exists page,
       fst (run two_continents (mkSelection [] [] 1 2))
       = (page ++ [BarChart [("Chile", 3)]])%list.
Proof.
  destruct (placeholders_shown two_days only_A_on_day_2)
    as (_ & Ht & _ & _).
  split; [reflexivity|]. split; [apply Ht; reflexivity|].
  destruct (placeholders_shown two_continents (mkSelection [] [] 1 2))
    as (_ & _ & _ & Hb).
  destruct Hb as (page & Hp & _); [vm_compute; discriminate|].
  exists page. exact Hp.
Defined.

(** ** Growth rate and rebound index *)

Lemma avg7_at_telescopes (c : list Z) (j : nat) :
  avg7_at c (j + 6)
  = (inject_Z (nth (j + 6) c 0%Z - nth (j - 1) c 0%Z) / 7)%Q.
Proof.
  unfold avg7_at. f_equal. f_equal.
  replace (j + 6 - 6)%nat with j by lia.
  replace (j + 6 - 5)%nat with (S j) by lia.
  replace (j + 6 - 4)%nat with (S (S j)) by lia.
  replace (j + 6 - 3)%nat with (S (S (S j))) by lia.
  replace (j + 6 - 2)%nat with (S (S (S (S j)))) by lia.
  replace (j + 6 - 1)%nat with (S (S (S (S (S j))))) by lia.
  replace (j + 6)%nat with (S (S (S (S (S (S j)))))) by lia.
  destruct j as [|k]; unfold new_case_at.
  - simpl Nat.sub. lia.
  - replace (S k - 1)%nat with k by lia. lia.
Qed.

(** X14. The 7-day mean is blank on the first six positions; from the
    seventh on it is the change of [confirmed] over the window divided by
    seven: (confirmed[i] - confirmed[i-7]) / 7, and on the seventh position,
    whose window starts with the zero first difference,
    (confirmed[6] - confirmed[0]) / 7. *)
Theorem avg_7d_telescopes (tl : list TimelineRow) (i : nat)
  (Hi : (i < List.length tl)%nat) :
  ((i < 6)%nat -> nth i (avg_7d tl) None = None)
  /\ ((6 <= i)%nat ->
      nth i (avg_7d tl) None
      = Some (inject_Z (nth i (map tl_confirmed tl) 0%Z
                        - nth (i - 7) (map tl_confirmed tl) 0%Z) / 7)%Q).
Proof.
  split; intro H.
  - unfold avg_7d. rewrite nth_rolling_mean
      by now rewrite length_new_cases.
    replace (S i <? 7)%nat with true by (symmetry; apply Nat.ltb_lt; lia).
    reflexivity.
  - rewrite nth_avg_7d by lia. f_equal.
    replace i with ((i - 6) + 6)%nat at 1 by lia.
    rewrite avg7_at_telescopes.
    replace (i - 6 + 6)%nat with i by lia.
    replace (i - 6 - 1)%nat with (i - 7)%nat by lia.
    reflexivity.
Qed.

Lemma avg_7d_telescopes_witness :
  (13 < List.length rising)%nat
  /\ nth 13 (avg_7d rising) None = Some ((14 - 6) # 7)%Q
  /\ nth 6 (avg_7d rising) None = Some ((6 - 0) # 7)%Q
  /\ nth 5 (avg_7d rising) None = None.
Proof.
  assert (H : (13 < List.length rising)%nat) by (simpl; lia).
  split; [exact H|]. split; [|split; reflexivity].
  rewrite (proj2 (avg_7d_telescopes rising 13 H)) by lia. reflexivity.
Defined.

Lemma Qdiv_gt_1 (a b : Q) : (0 < b)%Q -> ((1 < a / b)%Q <-> (b < a)%Q).
Proof.
  intro Hb.
  assert (Hne : ~ (b == 0)%Q) by (intro E; rewrite E in Hb; discriminate).
  rewrite <- (Qmult_lt_r 1 (a / b) b Hb).
  rewrite Qmult_1_l.
  assert (E : (a / b * b == a)%Q) by (rewrite Qmult_comm; now apply Qmult_div_r).
  rewrite E. reflexivity.
Qed.

(** X15. With at least 14 timeline points a ratio is always produced, and
    the verdict is the alert or the upward trend exactly when the 7-day
    mean of one week before is positive and the current one is larger; in
    particular a week of falling or flat counts before never gives an
    alert. *)
Theorem rebound_verdict_needs_growth (tl : list TimelineRow)
  (H : (14 <= List.length tl)%nat) :
  let c := map tl_confirmed tl in
  let cur := avg7_at c (List.length tl - 1) in
  let prev := avg7_at c (List.length tl - 8) in
  exists v ratio,
    rebound tl = Ok (ReboundIndex v (Some ratio))
    /\ (v <> StableOrDeclining <-> (0 < prev)%Q /\ (prev < cur)%Q).
Proof.
  intros c cur prev. unfold rebound.
  replace (14 <=? List.length tl)%nat with true
    by (symmetry; apply Nat.leb_le; exact H).
  rewrite (rebound_ratio_value tl H). fold c. fold cur. fold prev.
  simpl bind. eexists. eexists. split; [reflexivity|].
  destruct (verdict_thresholds (if Qle_bool prev 0 then 0%Q
                                else (cur / prev)%Q)) as (_ & _ & Hst).
  destruct (Qle_bool prev 0) eqn:E.
  - apply Qle_bool_iff in E. split.
    + intro Hv. exfalso. apply Hv. apply Hst. discriminate.
    + intros [Hp _]. exfalso. exact (Qlt_not_le _ _ Hp E).
  - apply Qle_bool_false in E. split.
    + intro Hv. split; [exact E|].
      apply (Qdiv_gt_1 cur prev E). apply Qnot_le_lt. intro Hle.
      apply Hv. apply Hst. revert Hle. generalize (cur / prev)%Q.
      intros x Hle. lra.
    + intros [_ Hlt] Hv. apply Hst in Hv.
      apply (Qdiv_gt_1 cur prev E) in Hlt.
      revert Hlt Hv. generalize (cur / prev)%Q. intros x Hlt Hv. lra.
Qed.

Lemma rebound_verdict_needs_growth_witness :
  (14 <= List.length falling)%nat
  /\ exists v ratio,
       rebound falling = Ok (ReboundIndex v (Some ratio))
       /\ v = StableOrDeclining.
Proof.
  assert (H : (14 <= List.length falling)%nat) by (simpl; lia).
  split; [exact H|].
  destruct (rebound_verdict_needs_growth falling H) as (v & ratio & Hr & _).
  exists v, ratio. split; [exact Hr|].
  change (rebound falling)
    with (Ok (ReboundIndex StableOrDeclining (Some 0%Q))) in Hr.
  now injection Hr as <- _.
Defined.

(** X16. On non-negative counts the growth rate is never below -100; it
    is positive exactly when the last value exceeds the first, and zero
    exactly when the two are equal. *)
Theorem growth_rate_sign (start_val end_val : Z)
  (Hstart : 0 <= start_val) (Hend : 0 <= end_val) :
  exists g,
    growth_rate start_val end_val = Ok g
    /\ (- (100) <= g)%Q
    /\ ((0 < g)%Q <-> start_val < end_val)
    /\ ((g == 0)%Q <-> end_val = start_val).
Proof.
  rewrite growth_rate_value. eexists. split; [reflexivity|].
  destruct start_val as [|p|p]; [| |lia].
  - simpl. destruct (Z.eqb_spec end_val 0) as [->|Hne].
    + unfold Qle, Qlt, Qeq; simpl; intuition lia.
    + unfold Qle, Qlt, Qeq; simpl; intuition lia.
  - replace (0 <? Z.pos p) with true by reflexivity.
    unfold Qle, Qlt, Qeq, Qdiv, Qmult, Qinv, inject_Z. simpl.
    rewrite ?Z.mul_1_r, ?Pos.mul_1_r, ?Pos.mul_1_l.
    repeat split; intros; nia.
Qed.

Lemma growth_rate_sign_witness :
  exists g, growth_rate 100 150 = Ok g /\ (g == 50)%Q /\ (0 < g)%Q.
Proof.
  destruct (growth_rate_sign 100 150) as (g & Hg & _ & Hpos & _);
    [lia|lia|].
  exists g. split; [exact Hg|]. split.
  - change (growth_rate 100 150) with (Ok (5000 # 100)%Q) in Hg.
    now injection Hg as <-.
  - apply Hpos. lia.
Defined.

(** X17. The conclusions never fail, on any timeline and whatever the
    counts, negative or falling ones included: no position is out of
    range and no division is by zero; and a ratio that is shown is a
    number, never NaN. *)
Theorem conclusions_never_raise (tl : list TimelineRow) :
  exists c,
    conclusions tl = Ok c
    /\ forall g s e v r,
         c = Growth g s e (ReboundIndex v r) ->
         (14 <= List.length tl)%nat
         /\ exists q, r = Some q /\ v = verdict (Some q).
Proof.
  destruct (Nat.le_gt_cases (List.length tl) 1) as [H1|H2].
  - exists InsufficientData. split; [now apply conclusions_insufficient|].
    discriminate.
  - destruct (conclusions_growth tl (mkTimelineRow 0 0 0 0 0))
      as (g & reb & _ & Hr & Hc); [lia|].
    eexists. split; [exact Hc|].
    intros g' s e v r E. injection E as _ _ _ ->.
    unfold rebound in Hr.
    destruct (14 <=? List.length tl)%nat eqn:E14; [|discriminate].
    apply Nat.leb_le in E14. split; [exact E14|].
    rewrite (rebound_ratio_value tl E14) in Hr. simpl in Hr.
    injection Hr as <- <-. eexists. split; reflexivity.
Qed.

Lemma conclusions_never_raise_witness :
  exists c, conclusions falling = Ok c /\ c <> InsufficientData.
Proof.
  destruct (conclusions_never_raise falling) as (c & Hc & _).
  exists c. split; [exact Hc|].
  intros ->. vm_compute in Hc. discriminate Hc.
Defined.

(** ** Row order *)

Lemma filter_rows_Permutation (keep : Row -> bool) (t t' : DataFrame) :
  Permutation t t' -> Permutation (filter keep t) (filter keep t').
Proof.
  intro H. induction H as [|x l l' _ IH|x y l|l l' l'' _ IH1 _ IH2]; simpl.
  - constructor.
  - destruct (keep x); [now constructor|exact IH].
  - destruct (keep x), (keep y); try reflexivity. apply perm_swap.
  - now transitivity (filter keep l').
Qed.

Lemma Zsum_Permutation (l l' : list Z) : Permutation l l' -> Zsum l = Zsum l'.
Proof. induction 1; simpl; lia. Qed.

Lemma sorted_same_elements (l l' : list Z) :
  StronglySorted Z.lt l -> StronglySorted Z.lt l' ->
  (forall x, In x l <-> In x l') -> l = l'.
Proof.
  revert l'; induction l as [|x xs IH]; intros [|y ys] Hs Hs' Hin.
  - reflexivity.
  - exfalso. apply (Hin y). now left.
  - exfalso. apply (Hin x). now left.
  - inversion Hs as [|? ? Hxs Hx]; subst.
    inversion Hs' as [|? ? Hys Hy]; subst.
    rewrite Forall_forall in Hx, Hy.
    assert (E : x = y).
    { destruct (proj1 (Hin x) (or_introl eq_refl)) as [E|Hxy];
        [now symmetry|].
      destruct (proj2 (Hin y) (or_introl eq_refl)) as [E|Hyx];
        [exact E|].
      specialize (Hx y Hyx). specialize (Hy x Hxy). lia. }
    subst y. f_equal. apply IH; [exact Hxs|exact Hys|].
    intro z. split; intro Hz.
    + destruct (proj1 (Hin z) (or_intror Hz)) as [E|H]; [|exact H].
      specialize (Hx z Hz). lia.
    + destruct (proj2 (Hin z) (or_intror Hz)) as [E|H]; [|exact H].
      specialize (Hy z Hz). lia.
Qed.

Lemma timeline_Permutation (t t' : DataFrame) :
  Permutation t t' -> timeline t = timeline t'.
Proof.
  intro H. unfold timeline.
  assert (Hkeys : group_keys_date (map file_date t)
                  = group_keys_date (map file_date t')).
  { apply sorted_same_elements; try apply group_keys_date_sorted.
    intro d. rewrite !group_keys_date_In.
    split; apply Permutation_in; [|symmetry]; now apply Permutation_map. }
  rewrite Hkeys. apply map_ext. intro d.
  assert (Hg : Permutation (rows_of_date d t) (rows_of_date d t'))
    by now apply filter_rows_Permutation.
  f_equal; apply Zsum_Permutation; now apply Permutation_map.
Qed.

(** X18. The order of the rows in the table does not matter to the KPIs,
    the timeline or the conclusions: two tables with the same rows in a
    different order give the same totals, the same timeline and the same
    growth rate and rebound verdict, for every selection. *)
Theorem row_order_irrelevant (df df' : DataFrame) (sel : Selection)
  (Hperm : Permutation df df') :
  kpi_confirmed (df_last_day df sel) = kpi_confirmed (df_last_day df' sel)
  /\ kpi_deaths (df_last_day df sel) = kpi_deaths (df_last_day df' sel)
  /\ timeline (df_filtered df sel) = timeline (df_filtered df' sel)
  /\ conclusions (timeline (df_filtered df sel))
     = conclusions (timeline (df_filtered df' sel)).
Proof.
  assert (Hf : Permutation (df_filtered df sel) (df_filtered df' sel)).
  { rewrite !df_filtered_row_selected. now apply filter_rows_Permutation. }
  assert (Hl : Permutation (df_last_day df sel) (df_last_day df' sel))
    by (unfold df_last_day; now apply filter_rows_Permutation).
  assert (Ht := timeline_Permutation _ _ Hf).
  rewrite !kpi_confirmed_sum, !kpi_deaths_sum, Ht.
  repeat split; apply Zsum_Permutation; now apply Permutation_map.
Qed.

Lemma row_order_irrelevant_witness :
  Permutation two_rows (rev two_rows)
  /\ timeline (df_filtered two_rows day_1)
     = timeline (df_filtered (rev two_rows) day_1)
  /\ kpi_confirmed (df_last_day (rev two_rows) day_1) = 100.
Proof.
  assert (H : Permutation two_rows (rev two_rows)) by apply Permutation_rev.
  split; [exact H|].
  destruct (row_order_irrelevant two_rows (rev two_rows) day_1 H)
    as (Hc & _ & Ht & _).
  split; [exact Ht|]. rewrite <- Hc. reflexivity.
Defined.

(** ** Bounds *)

(** X19. When the deaths total does not exceed the confirmed total, the
    fatality rate lies between 0 and 100, and it is zero exactly when
    there are no deaths or no confirmed cases. *)
Theorem fatality_rate_bounds (deaths_total confirmed_total : Z)
  (Hdeaths : 0 <= deaths_total)
  (Hle : deaths_total <= confirmed_total) :
  exists rate,
    fatality_rate deaths_total confirmed_total = Ok rate
    /\ (0 <= rate)%Q /\ (rate <= 100)%Q
    /\ ((rate == 0)%Q <-> deaths_total = 0 \/ confirmed_total = 0).
Proof.
  rewrite fatality_rate_value. eexists. split; [reflexivity|].
  destruct confirmed_total as [|p|p]; [| |lia].
  - simpl. unfold Qle, Qeq; simpl. intuition lia.
  - replace (0 <? Z.pos p) with true by reflexivity.
    unfold Qle, Qlt, Qeq, Qdiv, Qmult, Qinv, inject_Z. simpl.
    rewrite ?Z.mul_1_r, ?Pos.mul_1_r, ?Pos.mul_1_l.
    repeat split; intros; nia.
Qed.

Lemma fatality_rate_bounds_witness :
  exists rate, fatality_rate 3 100 = Ok rate /\ (rate <= 100)%Q.
Proof.
  destruct (fatality_rate_bounds 3 100) as (rate & Hr & _ & Hle & _);
    [lia|lia|].
  now exists rate.
Defined.

(** X20. On a loaded table the continent options hold no duplicate and
    only the seven labels, so there are at most seven of them. *)
Theorem all_continents_labels
  (name_to_alpha2 alpha2_to_code : string -> result string)
  (t : CsvTable) (df : DataFrame)
  (Hload : load_data name_to_alpha2 alpha2_to_code (Some t) = Ok df) :
  NoDup (all_continents df)
  /\ incl (all_continents df) continent_labels
  /\ (List.length (all_continents df) <= 7)%nat.
Proof.
  destruct (load_data_rows name_to_alpha2 alpha2_to_code t)
    as (df' & Hdf & _ & Hc & _).
  rewrite Hload in Hdf. injection Hdf as <-.
  assert (Hn : NoDup (all_continents df)).
  { unfold all_continents. apply sorted_NoDup, unique_from_NoDup. }
  assert (Hi : incl (all_continents df) continent_labels).
  { intros c Hin. unfold all_continents in Hin.
    rewrite sorted_In, unique_In in Hin. apply in_map_iff in Hin.
    destruct Hin as (r & <- & Hr). rewrite Forall_forall in Hc.
    rewrite (Hc r Hr).
    unfold get_continent.
    destruct (get_continent_body name_to_alpha2 alpha2_to_code
                (country_region r)) as [v|e] eqn:E; simpl.
    - unfold get_continent_body in E.
      destruct (name_to_alpha2 _) as [a|]; [|discriminate].
      simpl in E. destruct (alpha2_to_code a) as [k|]; [|discriminate].
      simpl in E. injection E as <-. apply dict_get_continents.
    - unfold continent_labels. simpl. tauto. }
  split; [exact Hn|]. split; [exact Hi|].
  exact (NoDup_incl_length Hn Hi).
Qed.

Lemma all_continents_labels_witness :
  exists df,
    load_data sample_alpha2 sample_continent_code
      (Some (mkCsvTable false
               [ mkCsvRow "US" (day 1) 30 1 4 0 None None;
                 mkCsvRow "Atlantis" (day 1) 2 0 0 0 None None;
                 mkCsvRow "US" (day 2) 40 1 9 0 None None ]))
    = Ok df
    /\ all_continents df = ["North America"; "Others"]
    /\ map active df = [25; 2; 30]
    /\ (List.length (all_continents df) <= 7)%nat.
Proof.
  eexists. split; [reflexivity|]. split; [reflexivity|].
  split; [reflexivity|].
  eapply (all_continents_labels sample_alpha2 sample_continent_code).
  reflexivity.
Defined.

(** * The rebound index in binary64 *)

(** ** Order of binary64 numbers *)

Lemma SFcompare_swap (a b : spec_float) :
  SFcompare b a = option_map CompOpp (SFcompare a b).
Proof.
  destruct a as [sa|sa| |sa ma ea], b as [sb|sb| |sb mb eb]; simpl;
    try reflexivity;
    try (destruct sa; reflexivity); try (destruct sb; reflexivity);
    try (destruct sa, sb; reflexivity).
  destruct sa, sb; simpl; try reflexivity;
    rewrite (Z.compare_antisym ea eb);
    destruct (ea ?= eb)%Z; simpl; try reflexivity;
    rewrite (Pos.compare_cont_antisym); simpl; try reflexivity.
  now rewrite CompOpp_involutive.
Qed.

Lemma SFcompare_same (a : spec_float) :
  SFcompare a a = match a with S754_nan => None | _ => Some Eq end.
Proof.
  destruct a as [s|s| |s m e]; simpl; try reflexivity.
  - destruct s; reflexivity.
  - destruct s; rewrite Z.compare_refl, Pos.compare_cont_refl; reflexivity.
Qed.

Lemma SFcompare_numbers (a b : spec_float) :
  SFeqb a a = true -> SFeqb b b = true -> exists cmp, SFcompare a b = Some cmp.
Proof.
  unfold SFeqb.
  destruct a as [sa|sa| |sa ma ea], b as [sb|sb| |sb mb eb]; simpl;
    try discriminate; intros _ _; eexists; reflexivity.
Qed.

(** On two numbers, [c < r] fails exactly when [r <= c]. *)
Lemma ltb_negb_leb (c r : float) :
  (c =? c)%float = true -> (r =? r)%float = true ->
  (c <? r)%float = negb (r <=? c)%float.
Proof.
  rewrite !eqb_spec, ltb_spec, leb_spec. intros Hc Hr.
  destruct (SFcompare_numbers _ _ Hc Hr) as [cmp Hcmp].
  unfold SFltb, SFleb.
  rewrite (SFcompare_swap (Prim2SF c) (Prim2SF r)), Hcmp.
  destruct cmp; reflexivity.
Qed.

(** What is above a number is a number. *)
Lemma ltb_number (c r : float) :
  (c <? r)%float = true -> (r =? r)%float = true.
Proof.
  rewrite eqb_spec, ltb_spec. unfold SFeqb, SFltb.
  rewrite SFcompare_same.
  destruct (Prim2SF c), (Prim2SF r); simpl; try discriminate; reflexivity.
Qed.

Lemma above_alert_level (r : float) :
  (Binary64.alert_level <? r)%float = true -> (1 <? r)%float = true.
Proof.
  rewrite !ltb_spec. unfold SFltb.
  change (Prim2SF Binary64.alert_level)
    with (S754_finite false 5404319552844595 (-52)).
  change (Prim2SF 1) with (S754_finite false 4503599627370496 (-52)).
  destruct (Prim2SF r) as [s|s| |s m e];
    cbv beta iota delta [SFcompare]; try discriminate.
  - destruct s; [discriminate|reflexivity].
  - destruct s; [discriminate|].
    destruct (Z.compare (-52) e); try discriminate; try reflexivity.
    rewrite !Pos.compare_cont_spec. unfold Pos.switch_Eq.
    destruct (5404319552844595 ?= m)%positive eqn:E1; try discriminate.
    intros _. apply Pos.compare_lt_iff in E1.
    assert (H1 : (4503599627370496 ?= m)%positive = Lt)
      by (apply Pos.compare_lt_iff;
          apply (Pos.lt_trans _ 5404319552844595); [reflexivity|exact E1]).
    now rewrite H1.
Qed.

Lemma verdict_binary64 (r : float) :
  (Binary64.verdict r = ReboundAlert
   <-> (Binary64.alert_level <? r)%float = true)
  /\ (Binary64.verdict r = UpwardTrend
      <-> (1 <? r)%float = true /\ (r <=? Binary64.alert_level)%float = true)
  /\ (Binary64.verdict r = StableOrDeclining <-> (1 <? r)%float = false)
  /\ ((r =? r)%float = true ->
      (Binary64.verdict r = StableOrDeclining <-> (r <=? 1)%float = true)).
Proof.
  assert (Ha : (Binary64.alert_level =? Binary64.alert_level)%float = true)
    by reflexivity.
  assert (H1 : (1 =? 1)%float = true) by reflexivity.
  unfold Binary64.verdict.
  destruct (Binary64.alert_level <? r)%float eqn:E1.
  - assert (E2 := above_alert_level r E1).
    assert (Hr := ltb_number _ _ E1).
    rewrite (ltb_negb_leb Binary64.alert_level r Ha Hr) in E1. apply negb_true_iff in E1.
    rewrite (ltb_negb_leb 1%float r H1 Hr) in E2. apply negb_true_iff in E2.
    rewrite (ltb_negb_leb 1%float r H1 Hr), E1, E2. simpl.
    repeat split; try discriminate; try tauto.
    intros [_ H]. discriminate H.
  - destruct (1 <? r)%float eqn:E2.
    + assert (Hr := ltb_number _ _ E2).
      rewrite (ltb_negb_leb Binary64.alert_level r Ha Hr) in E1. apply negb_false_iff in E1.
      rewrite (ltb_negb_leb 1%float r H1 Hr) in E2. apply negb_true_iff in E2.
      rewrite E1, E2.
      repeat split; try discriminate; try tauto.
    + repeat split; try discriminate; try tauto.
      * intros [H _]. discriminate H.
      * intros _. rewrite (ltb_negb_leb 1%float r H1 H) in E2.
        now apply negb_false_iff in E2.
Qed.

(** ** New cases and the rolling mean *)

Lemma window_nth {A : Type} (k s : nat) (l : list A) (d : A) :
  (s + k <= List.length l)%nat ->
  firstn k (skipn s l) = map (fun j => nth (s + j) l d) (seq 0 k).
Proof.
  revert s; induction k as [|k IH]; intros s H; [reflexivity|].
  rewrite <- cons_seq, <- seq_shift. cbn [map]. rewrite map_map.
  destruct (skipn s l) as [|x r] eqn:E.
  - apply (f_equal (@List.length A)) in E. rewrite length_skipn in E.
    simpl in E. lia.
  - assert (Hx : nth (s + 0) l d = x).
    { rewrite Nat.add_0_r. rewrite <- (firstn_skipn s l) at 1. rewrite E.
      rewrite app_nth2; rewrite length_firstn, Nat.min_l by lia; [|lia].
      now rewrite Nat.sub_diag. }
    assert (Hr : r = skipn (S s) l).
    { replace (S s) with (1 + s)%nat by lia.
      rewrite <- skipn_skipn, E. reflexivity. }
    simpl firstn. rewrite Hx, Hr, (IH (S s)) by lia.
    f_equal. apply map_ext. intro j. f_equal. lia.
Qed.

Lemma binary64_length_diff_from (p : float) (l : list float) :
  List.length (Binary64.diff_from p l) = List.length l.
Proof. revert p; induction l; simpl; intros; [reflexivity|now rewrite IHl]. Qed.

Lemma binary64_length_new_cases (tl : list TimelineRow) :
  List.length (Binary64.new_cases tl) = List.length tl.
Proof.
  unfold Binary64.new_cases, Binary64.fillna, Binary64.diff.
  rewrite length_map.
  destruct tl; simpl; [reflexivity|].
  now rewrite binary64_length_diff_from, !length_map.
Qed.

Lemma binary64_length_avg_7d (tl : list TimelineRow) :
  List.length (Binary64.avg_7d tl) = List.length tl.
Proof.
  unfold Binary64.avg_7d, Binary64.rolling_mean.
  now rewrite length_map, length_seq, binary64_length_new_cases.
Qed.

Lemma binary64_nth_diff_from (p : float) (l : list float) (i : nat) :
  (i < List.length l)%nat ->
  nth i (Binary64.fillna 0 (Binary64.diff_from p l)) 0%float
  = let d := (nth i l 0
              - match i with O => p | S j => nth j l 0 end)%float in
    if Binary64.isna d then 0%float else d.
Proof.
  unfold Binary64.fillna.
  revert p i; induction l as [|x l IH]; simpl; intros p i H; [lia|].
  destruct i as [|i]; [reflexivity|].
  rewrite IH by lia. destruct i; reflexivity.
Qed.

Lemma binary64_nth_new_cases (tl : list TimelineRow) (i : nat) :
  (i < List.length tl)%nat ->
  nth i (Binary64.new_cases tl) 0%float
  = Binary64.new_case_at (map tl_confirmed tl) i.
Proof.
  unfold Binary64.new_cases. intro H.
  rewrite <- (length_map tl_confirmed) in H.
  remember (map tl_confirmed tl) as c eqn:Ec. clear Ec tl.
  destruct c as [|x c]; simpl in H; [lia|].
  destruct i as [|i]; [reflexivity|].
  unfold Binary64.new_case_at.
  change (nth (S i) (x :: c) 0) with (nth i c 0).
  cbn [map Binary64.diff].
  change (nth (S i) (Binary64.fillna 0
                       (nan :: Binary64.diff_from (Binary64.float_of_Z x)
                                 (map Binary64.float_of_Z c))) 0%float)
    with (nth i (Binary64.fillna 0
                   (Binary64.diff_from (Binary64.float_of_Z x)
                      (map Binary64.float_of_Z c))) 0%float).
  assert (Hm : forall j,
            nth j (map Binary64.float_of_Z c) 0%float
            = Binary64.float_of_Z (nth j c 0)).
  { intro j. change 0%float with (Binary64.float_of_Z 0).
    apply map_nth. }
  rewrite binary64_nth_diff_from by (rewrite length_map; lia).
  cbv zeta. destruct i as [|i]; rewrite ?Hm; reflexivity.
Qed.

Lemma binary64_nth_avg_7d (tl : list TimelineRow) (i : nat) :
  (6 <= i < List.length tl)%nat ->
  nth i (Binary64.avg_7d tl) nan
  = Binary64.avg7_at (map tl_confirmed tl) i.
Proof.
  intros [H6 Hi]. unfold Binary64.avg_7d, Binary64.rolling_mean.
  rewrite nth_map_seq by now rewrite binary64_length_new_cases.
  replace (S i <? 7)%nat with false by (symmetry; apply Nat.ltb_ge; lia).
  rewrite (window_nth 7 (S i - 7) _ 0%float)
    by (rewrite binary64_length_new_cases; lia).
  cbn [seq map fold_left].
  replace (S i - 7 + 0)%nat with (i - 6)%nat by lia.
  replace (S i - 7 + 1)%nat with (i - 5)%nat by lia.
  replace (S i - 7 + 2)%nat with (i - 4)%nat by lia.
  replace (S i - 7 + 3)%nat with (i - 3)%nat by lia.
  replace (S i - 7 + 4)%nat with (i - 2)%nat by lia.
  replace (S i - 7 + 5)%nat with (i - 1)%nat by lia.
  replace (S i - 7 + 6)%nat with i by lia.
  rewrite !binary64_nth_new_cases by lia.
  reflexivity.
Qed.

(** C3, amended. With at least 14 timeline points the rebound ratio is the
    7-day mean of new cases at the last position divided by the 7-day mean
    at position -8, provided that denominator is positive; when the
    denominator is zero or negative no division takes place and the ratio
    is 0.  All of it is computed in binary64, and the verdict is taken
    from the ratio so computed: the alert iff ratio > 1.2, the upward trend
    iff 1.0 < ratio <= 1.2, stable or declining iff not ratio > 1.0, that
    is iff ratio <= 1.0 for a ratio that is a number. *)
Theorem rebound_index_binary64 (tl : list TimelineRow)
  (H : (14 <= List.length tl)%nat) :
  let c := map tl_confirmed tl in
  let cur := Binary64.avg7_at c (List.length tl - 1) in
  let prev := Binary64.avg7_at c (List.length tl - 8) in
  exists ratio : float,
    Binary64.rebound tl
    = Ok (Binary64.ReboundIndex (Binary64.verdict ratio) ratio)
    /\ nth (List.length tl - 1) (Binary64.avg_7d tl) nan = cur
    /\ nth (List.length tl - 8) (Binary64.avg_7d tl) nan = prev
    /\ ((0 <? prev)%float = true -> ratio = (cur / prev)%float)
    /\ ((0 <? prev)%float = false -> ratio = 0%float)
    /\ (Binary64.verdict ratio = ReboundAlert
        <-> (Binary64.alert_level <? ratio)%float = true)
    /\ (Binary64.verdict ratio = UpwardTrend
        <-> (1 <? ratio)%float = true
            /\ (ratio <=? Binary64.alert_level)%float = true)
    /\ (Binary64.verdict ratio = StableOrDeclining
        <-> (1 <? ratio)%float = false)
    /\ ((ratio =? ratio)%float = true ->
        (Binary64.verdict ratio = StableOrDeclining
         <-> (ratio <=? 1)%float = true)).
Proof.
  intros c cur prev.
  exists (if (0 <? prev)%float then (cur / prev)%float else 0%float).
  split; [|split; [|split; [|split; [|split]]]].
  - unfold Binary64.rebound, Binary64.rebound_ratio.
    replace (14 <=? List.length tl)%nat with true
      by (symmetry; apply Nat.leb_le; exact H).
    change (-1) with (- Z.of_nat 1). change (-8) with (- Z.of_nat 8).
    rewrite (iloc_from_end (Binary64.avg_7d tl) 1 nan)
      by (rewrite binary64_length_avg_7d; lia).
    rewrite (iloc_from_end (Binary64.avg_7d tl) 8 nan)
      by (rewrite binary64_length_avg_7d; lia).
    rewrite binary64_length_avg_7d, !binary64_nth_avg_7d by lia.
    reflexivity.
  - apply binary64_nth_avg_7d. lia.
  - apply binary64_nth_avg_7d. lia.
  - intro Hp. now rewrite Hp.
  - intro Hp. now rewrite Hp.
  - apply verdict_binary64.
Qed.

(** Weekly increases of 18 and 15: the quotient of the two means, 6/5 in
    exact arithmetic, is 1.2000000000000002 in binary64 and raises the
    alert. *)
Lemma rebound_index_binary64_witness :
  (14 <= List.length near_alert)%nat
  /\ Binary64.avg7_at (map tl_confirmed near_alert) 13
     = (18 / 7)%float
  /\ Binary64.avg7_at (map tl_confirmed near_alert) 6
     = (15 / 7)%float
  /\ Binary64.rebound near_alert
     = Ok (Binary64.ReboundIndex ReboundAlert 0x1.3333333333334p+0%float).
Proof.
  assert (H : (14 <= List.length near_alert)%nat) by (simpl; lia).
  split; [exact H|]. split; [reflexivity|]. split; [reflexivity|].
  destruct (rebound_index_binary64 near_alert H)
    as (ratio & Hr & _ & _ & Hpos & _).
  rewrite Hr, (Hpos eq_refl). reflexivity.
Defined.

(** * The conclusions on the page *)

(** When the end date has rows and the timeline a single row, the page
    shows the message of the conclusions. *)
Lemma run_reports_insufficient_data (df : DataFrame) (sel : Selection) :
  df_last_day df sel <> [] ->
  (List.length (timeline (df_filtered df sel)) <= 1)%nat ->
  In InsufficientDataMessage (fst (run df sel)).
Proof.
  intros H Hlen.
  destruct (run_page df sel H) as (md & c & _ & Hc & Hrun).
  rewrite (conclusions_insufficient _ Hlen) in Hc. injection Hc as <-.
  rewrite Hrun. cbn [fst]. apply in_or_app. right.
  apply in_or_app. left. now left.
Qed.

(** When the end date has no row, the run stops before the conclusions
    and their message is not on the page. *)
Lemma run_stops_before_conclusions (df : DataFrame) (sel : Selection) :
  df_last_day df sel = [] ->
  ~ In InsufficientDataMessage (fst (run df sel)).
Proof.
  intro H. rewrite (run_empty_last_day df sel H). cbn [fst].
  destruct (negb (empty (timeline (df_filtered df sel)))); simpl;
    intuition discriminate.
Qed.

(** C10, on the inputs where it fails.  Country A of [two_days] on day 2
    alone gives a timeline without date, and on days 1 to 2 a timeline of
    one date: the conclusions would report insufficient data for both, but
    the end date has no row, the run stops on the [NameError] of the map
    step and the message is never shown. *)
Theorem insufficient_data_not_reported :
  (timeline (df_filtered two_days only_A_on_day_2) = []
   /\ conclusions (timeline (df_filtered two_days only_A_on_day_2))
      = Ok InsufficientData
   /\ snd (run two_days only_A_on_day_2)
      = Raise (NameError "country_totals")
   /\ ~ In InsufficientDataMessage (fst (run two_days only_A_on_day_2)))
  /\ (map tl_file_date (timeline (df_filtered two_days only_A_on_days_1_2))
      = [day 1]
      /\ conclusions (timeline (df_filtered two_days only_A_on_days_1_2))
         = Ok InsufficientData
      /\ run two_days only_A_on_days_1_2
         = ([ MetricCount "Total Confirmados" 0;
              MetricCount "Total Fallecidos" 0;
              MetricRate "Tasa de Letalidad" "0.00%";
              LineChart [ mkTimelineRow (day 1) 30 1 0 5 ] ],
            Raise (NameError "country_totals"))
      /\ ~ In InsufficientDataMessage
              (fst (run two_days only_A_on_days_1_2))).
Proof.
  split; (split; [reflexivity|]); (split; [reflexivity|]);
    (split; [reflexivity|]); apply run_stops_before_conclusions;
    reflexivity.
Qed.
